(** * SwaggerToJMeter: the OpenAPI -> JMeter test-plan generator

    A shallow embedding of [src/components/SwaggerToJMeter.tsx]:
    the base-URL derivation of [handleFileUpload], and, from
    [generateJMeterXml], [urlParts], the [operations] extraction,
    [resolveSchema], [generateRequestBody] with its inner
    [generateSampleJson], and the [httpSamplers] map.

    Conventions of the model.
    - A JavaScript value of a parsed JSON/YAML document is a [value].
      An object is the list of its own enumerable string-keyed properties in
      the order [Object.entries] lists them; inherited properties
      ([constructor], [toString], ...) are not modelled.
    - A JavaScript string is a [string] of 8-bit characters; case mapping
      acts on the ASCII letters.
    - A number is a rational; floating-point rounding is idealised away.
    - The code runs in [result]: a value, a thrown [TypeError], an
      operation of the language that the model leaves out ([Unsupported]),
      or an exhausted recursion budget ([OutOfFuel]).  The budget bounds
      the depth of the [generateSampleJson] call stack. *)

From Stdlib Require Import String Ascii List Bool Arith ZArith QArith Qround
  DecimalString Lia.
Import ListNotations.
Local Open Scope string_scope.
Local Open Scope Z_scope.
Set Warnings "-register-all".

(** ** Values *)

Inductive value : Type :=
| VUndefined
| VNull
| VBool (b : bool)
| VNum (q : Q)
| VStr (s : string)
| VArr (elems : list value)
| VObj (props : list (string * value)).

(** The double-quote character, code unit 34. *)
Definition dquote : ascii := ascii_of_nat 34.

Definition str1 (c : ascii) : string := String c EmptyString.

(** ** Strings: the methods of [String.prototype] the code calls *)

Fixpoint starts_with (p s : string) : bool :=
  match p, s with
  | EmptyString, _ => true
  | String a p', String b s' => if Ascii.eqb a b then starts_with p' s' else false
  | String _ _, EmptyString => false
  end.

(** [s.includes(needle)] *)
Fixpoint includes (needle s : string) : bool :=
  if starts_with needle s then true
  else match s with
       | EmptyString => false
       | String _ s' => includes needle s'
       end.

Fixpoint drop (n : nat) (s : string) : string :=
  match n, s with
  | O, _ => s
  | S n', String _ s' => drop n' s'
  | S _, EmptyString => EmptyString
  end.

(** [s.replace(pat, by)] for a string pattern: the first occurrence only. *)
Fixpoint replace_first (pat by_ s : string) : string :=
  if starts_with pat s then by_ ++ drop (String.length pat) s
  else match s with
       | EmptyString => EmptyString
       | String c s' => String c (replace_first pat by_ s')
       end.

(** [s.split(sep)] for a one-character separator; never the empty list. *)
Fixpoint split_on (sep : ascii) (s : string) : list string :=
  match s with
  | EmptyString => [EmptyString]
  | String c s' =>
      if Ascii.eqb c sep then EmptyString :: split_on sep s'
      else match split_on sep s' with
           | [] => [str1 c]
           | w :: ws => String c w :: ws
           end
  end.

Definition lower_ascii (c : ascii) : ascii :=
  let n := nat_of_ascii c in
  if ((65 <=? n) && (n <=? 90))%nat then ascii_of_nat (n + 32) else c.

Definition upper_ascii (c : ascii) : ascii :=
  let n := nat_of_ascii c in
  if ((97 <=? n) && (n <=? 122))%nat then ascii_of_nat (n - 32) else c.

Fixpoint map_string (f : ascii -> ascii) (s : string) : string :=
  match s with
  | EmptyString => EmptyString
  | String c s' => String (f c) (map_string f s')
  end.

Definition toLowerCase : string -> string := map_string lower_ascii.
Definition toUpperCase : string -> string := map_string upper_ascii.

(** [s.charAt(0).toUpperCase() + s.slice(1)] *)
Definition capitalize (s : string) : string :=
  match s with
  | EmptyString => EmptyString
  | String c s' => String (upper_ascii c) s'
  end.

(** [s.replace(/q/g, '&quot;')] where [q] is the double-quote character. *)
Fixpoint escapeQuotes (s : string) : string :=
  match s with
  | EmptyString => EmptyString
  | String c s' =>
      if Ascii.eqb c dquote then "&quot;" ++ escapeQuotes s'
      else String c (escapeQuotes s')
  end.

(** [s.replace(/^https?:\/\//, '')] *)
Definition stripScheme (s : string) : string :=
  if starts_with "http://" s then drop 7 s
  else if starts_with "https://" s then drop 8 s
  else s.

(** *** The placeholder rewrite [path.replace(/{([^}]+)}/g, '${$1}')] *)

(** The longest prefix without a closing brace, and what follows it. *)
Fixpoint span_open (s : string) : string * string :=
  match s with
  | EmptyString => (EmptyString, EmptyString)
  | String c s' =>
      if Ascii.eqb c "}" then (EmptyString, s)
      else let '(run, rest) := span_open s' in (String c run, rest)
  end.

(** A match of [{([^}]+)}] anchored at the head of [s]: the captured group
    and the text after the match.  The group is greedy and cannot contain
    the closing brace, so the only candidate is the longest brace-free run
    after the opening brace; it must be non-empty and closed. *)
Definition match_placeholder (s : string) : option (string * string) :=
  match s with
  | String "{" s' =>
      match span_open s' with
      | (String c run, String "}" rest) => Some (String c run, rest)
      | _ => None
      end
  | _ => None
  end.

(** Global replacement: leftmost match first, the scan resumes after it.
    [n] bounds the number of scan steps; [String.length s] is enough. *)
Fixpoint rewrite_from (n : nat) (s : string) : string :=
  match n with
  | O => s
  | S n' =>
      match match_placeholder s with
      | Some (name, rest) => "${" ++ name ++ "}" ++ rewrite_from n' rest
      | None =>
          match s with
          | EmptyString => EmptyString
          | String c s' => String c (rewrite_from n' s')
          end
      end
  end.

Definition pathWithoutParams (path : string) : string :=
  rewrite_from (String.length path) path.

(** ** Numbers as text *)

Definition natToString (n : nat) : string :=
  NilZero.string_of_uint (Nat.to_uint n).

Definition intToString (z : Z) : string :=
  NilZero.string_of_int (Z.to_int z).

(** The decimal digits of [r / d] after the point, [0 <= r < d], at most
    [n] of them. *)
Fixpoint fracDigits (n : nat) (r d : Z) : string :=
  match n with
  | O => EmptyString
  | S n' =>
      if r =? 0 then EmptyString
      else intToString ((10 * r) / d) ++ fracDigits n' ((10 * r) mod d) d
  end.

(** [String(q)]: an integer prints as its digits, another number as its
    decimal expansion (a JSON literal of up to 17 significant digits prints
    as itself). *)
Definition numberToString (q : Q) : string :=
  let n := Qnum q in
  let d := Zpos (Qden q) in
  if n mod d =? 0 then intToString (n / d)
  else (if n <? 0 then "-" else EmptyString)
         ++ intToString (Z.abs n / d) ++ "." ++ fracDigits 17 (Z.abs n mod d) d.

(** A canonical array index: the decimal numeral of a natural number. *)
Definition arrayIndex (key : string) : option nat :=
  match NilZero.uint_of_string key with
  | Some u => let n := Nat.of_uint u in
              if String.eqb (natToString n) key then Some n else None
  | None => None
  end.

(** ** Property access, truthiness, entries, string coercion *)

Fixpoint assoc (key : string) (props : list (string * value)) : value :=
  match props with
  | [] => VUndefined
  | (k, v) :: rest => if String.eqb k key then v else assoc key rest
  end.

(** [v[key]] for a [v] that is neither [null] nor [undefined] (on those
    the access throws, see [getProp]; here they give [undefined], which is
    what [v?.[key]] evaluates to). *)
Definition get (v : value) (key : string) : value :=
  match v with
  | VObj props => assoc key props
  | VArr elems =>
      if String.eqb key "length" then VNum (inject_Z (Z.of_nat (List.length elems)))
      else match arrayIndex key with
           | Some i => nth i elems VUndefined
           | None => VUndefined
           end
  | VStr s =>
      if String.eqb key "length" then VNum (inject_Z (Z.of_nat (String.length s)))
      else match arrayIndex key with
           | Some i => match String.get i s with
                       | Some c => VStr (str1 c)
                       | None => VUndefined
                       end
           | None => VUndefined
           end
  | _ => VUndefined
  end.

Definition truthy (v : value) : bool :=
  match v with
  | VUndefined | VNull => false
  | VBool b => b
  | VNum q => negb (Qeq_bool q 0)
  | VStr s => negb (String.eqb s EmptyString)
  | VArr _ | VObj _ => true
  end.

(** [a || b] *)
Definition orElse (a b : value) : value := if truthy a then a else b.

Definition isUndefined (v : value) : bool :=
  match v with VUndefined => true | _ => false end.

Definition isNullish (v : value) : bool :=
  match v with VUndefined | VNull => true | _ => false end.

Fixpoint indexed {A : Type} (i : nat) (l : list A) : list (string * A) :=
  match l with
  | [] => []
  | x :: l' => (natToString i, x) :: indexed (S i) l'
  end.

Fixpoint chars (s : string) : list value :=
  match s with
  | EmptyString => []
  | String c s' => VStr (str1 c) :: chars s'
  end.

(** [Object.entries(v)] for a [v] that is neither [null] nor [undefined]. *)
Definition entries (v : value) : list (string * value) :=
  match v with
  | VObj props => props
  | VArr elems => indexed 0 elems
  | VStr s => indexed 0 (chars s)
  | _ => []
  end.

(** The value of an own property is replaced where it stands, a new
    property comes last. *)
Fixpoint setOwn (props : list (string * value)) (key : string) (v : value)
  : list (string * value) :=
  match props with
  | [] => [(key, v)]
  | (k, w) :: rest =>
      if String.eqb k key then (k, v) :: rest else (k, w) :: setOwn rest key v
  end.

(** [obj[key] = v] on an object built by the code.  The key [__proto__]
    names the accessor of the prototype: assigning to it gives the object
    no property of its own (the prototype it may set does not show in
    [JSON.stringify], which prints own properties only). *)
Definition setProp (props : list (string * value)) (key : string) (v : value)
  : list (string * value) :=
  if String.eqb key "__proto__" then props else setOwn props key v.

Fixpoint joinWith (sep : string) (l : list string) : string :=
  match l with
  | [] => EmptyString
  | [x] => x
  | x :: rest => x ++ sep ++ joinWith sep rest
  end.

(** [String(v)], the coercion a template literal applies. *)
Fixpoint toString (v : value) : string :=
  match v with
  | VUndefined => "undefined"
  | VNull => "null"
  | VBool true => "true"
  | VBool false => "false"
  | VNum q => numberToString q
  | VStr s => s
  | VArr elems =>
      joinWith "," (map (fun e => if isNullish e then EmptyString else toString e) elems)
  | VObj _ => "[object Object]"
  end.

(** ** [JSON.stringify(v, null, 2)] *)

Definition newline : string := str1 (ascii_of_nat 10).

Definition hexDigit (n : nat) : string :=
  str1 (ascii_of_nat (if (n <? 10)%nat then 48 + n else 87 + n)).

(** One code unit inside a JSON string literal. *)
Definition quoteChar (c : ascii) : string :=
  let n := nat_of_ascii c in
  if (n =? 8)%nat then "\b"
  else if (n =? 9)%nat then "\t"
  else if (n =? 10)%nat then "\n"
  else if (n =? 12)%nat then "\f"
  else if (n =? 13)%nat then "\r"
  else if (n =? 34)%nat then String (ascii_of_nat 92) (str1 dquote)
  else if (n =? 92)%nat then "\\"
  else if (n <? 32)%nat then "\u00" ++ hexDigit (n / 16) ++ hexDigit (n mod 16)
  else str1 c.

Fixpoint quoteBody (s : string) : string :=
  match s with
  | EmptyString => EmptyString
  | String c s' => quoteChar c ++ quoteBody s'
  end.

Definition quoteJSON (s : string) : string :=
  String dquote (quoteBody s ++ str1 dquote).

(** The serialisation of [v] at the current indentation; [None] is the
    [undefined] that [JSON.stringify] gives for [undefined]: such a property
    is left out of an object and printed as [null] in an array. *)
Fixpoint serialize (indent : string) (v : value) : option string :=
  match v with
  | VUndefined => None
  | VNull => Some "null"
  | VBool true => Some "true"
  | VBool false => Some "false"
  | VNum q => Some (numberToString q)
  | VStr s => Some (quoteJSON s)
  | VArr elems =>
      let inner := indent ++ "  " in
      let parts :=
        map (fun e => match serialize inner e with
                      | Some t => t
                      | None => "null"
                      end) elems in
      match parts with
      | [] => Some "[]"
      | _ => Some ("[" ++ newline ++ inner
                     ++ joinWith ("," ++ newline ++ inner) parts
                     ++ newline ++ indent ++ "]")
      end
  | VObj props =>
      let inner := indent ++ "  " in
      let parts :=
        flat_map (fun kv => match serialize inner (snd kv) with
                            | Some t => [quoteJSON (fst kv) ++ ": " ++ t]
                            | None => []
                            end) props in
      match parts with
      | [] => Some "{}"
      | _ => Some ("{" ++ newline ++ inner
                     ++ joinWith ("," ++ newline ++ inner) parts
                     ++ newline ++ indent ++ "}")
      end
  end.

(** [JSON.stringify(v, null, 2)]: a string, or [undefined]. *)
Definition JSON_stringify (v : value) : value :=
  match serialize EmptyString v with
  | Some t => VStr t
  | None => VUndefined
  end.

(** ** Outcomes and the state of one run *)

Inductive result (A : Type) : Type :=
| Ok (a : A)
| TypeError
| Unsupported
| OutOfFuel.
Arguments Ok {A} a.
Arguments TypeError {A}.
Arguments Unsupported {A}.
Arguments OutOfFuel {A}.

Definition bindR {A B : Type} (r : result A) (k : A -> result B) : result B :=
  match r with
  | Ok a => k a
  | TypeError => TypeError
  | Unsupported => Unsupported
  | OutOfFuel => OutOfFuel
  end.

(** What the run reads from its host: the calendar year of [new Date()] and
    the successive results of [Math.random()]. *)
Record Env : Type := { currentYear : Z; random : nat -> Q }.

(** [idCounter] is the variable of that name in [generateRequestBody];
    [draws] counts the calls of [Math.random()] made so far. *)
Record State : Type := { idCounter : Z; draws : nat }.

Definition M (A : Type) : Type := State -> result (A * State).

Definition ret {A : Type} (a : A) : M A := fun s => Ok (a, s).

Definition bind {A B : Type} (m : M A) (k : A -> M B) : M B :=
  fun s => bindR (m s) (fun '(a, s') => k a s').

Definition lift {A : Type} (r : result A) : M A :=
  fun s => bindR r (fun a => Ok (a, s)).

Definition fail {A : Type} (r : result A) : M A := lift r.

(** [idCounter++] *)
Definition nextId : M Z :=
  fun s => Ok (idCounter s, {| idCounter := idCounter s + 1; draws := draws s |}).

(** [Math.floor(Math.random() * n) + 1] *)
Definition randomUpTo (env : Env) (n : Z) : M Z :=
  fun s => Ok (Qfloor (random env (draws s) * inject_Z n) + 1,
               {| idCounter := idCounter s; draws := S (draws s) |}).

(** [v.key] where [v] may be [null] or [undefined]. *)
Definition getProp (v : value) (key : string) : result value :=
  if isNullish v then TypeError else Ok (get v key).

(** The number a [Math.max]/[Math.min] argument stands for.  The coercion
    of strings, arrays and objects is left out of the model. *)
Definition toNumber (v : value) : result Q :=
  match v with
  | VNum q => Ok q
  | VNull => Ok 0%Q
  | VBool true => Ok 1%Q
  | VBool false => Ok 0%Q
  | _ => Unsupported
  end.

Definition Math_max (a b : Q) : Q := if Qle_bool a b then b else a.
Definition Math_min (a b : Q) : Q := if Qle_bool a b then a else b.

(** [if (propertyName)]: the name, when it is given and not empty. *)
Definition givenName (propertyName : option string) : option string :=
  match propertyName with
  | Some n => if String.eqb n EmptyString then None else Some n
  | None => None
  end.

(** ** [generateJMeterXml] *)

(** [resolveSchema(schema, spec)].  One level of [$ref] is followed: the
    pointer, with its first [#/] removed, is split at the slashes and walked
    from the document root with [resolved?.[segment]]; a falsy end point is
    replaced by the empty schema. *)
Definition walk (spec : value) (refPath : list string) : value :=
  fold_left get refPath spec.

Definition resolveSchema (schema spec : value) : result value :=
  bindR (getProp schema "$ref") (fun ref =>
    if truthy ref then
      match ref with
      | VStr r =>
          let refPath := split_on "/" (replace_first "#/" EmptyString r) in
          Ok (orElse (walk spec refPath) (VObj []))
      | _ => TypeError
      end
    else Ok schema).

(** The loop of the [object] case: [obj[key] = generateSampleJson(prop, key)]
    for each entry of [properties], in order. *)
Fixpoint sampleProperties (gen : value -> option string -> M value)
  (es : list (string * value)) (obj : list (string * value)) : M value :=
  match es with
  | [] => ret (VObj obj)
  | (key, prop) :: es' =>
      bind (gen prop (Some key)) (fun v => sampleProperties gen es' (setProp obj key v))
  end.

(** The name table of the [string] case; [None] when no entry applies. *)
Definition stringByName (propertyName : option string) : option (M value) :=
  match givenName propertyName with
  | Some name =>
      let lowerName := toLowerCase name in
      if includes "id" lowerName then
        Some (bind nextId (fun n => ret (VStr (intToString n))))
      else if includes "name" lowerName then Some (ret (VStr ("sample" ++ capitalize name)))
      else if includes "email" lowerName then Some (ret (VStr "sample@example.com"))
      else if includes "url" lowerName || includes "link" lowerName then
        Some (ret (VStr "https://example.com"))
      else if includes "phone" lowerName then Some (ret (VStr "+1234567890"))
      else if includes "address" lowerName then Some (ret (VStr "123 Sample St"))
      else if includes "city" lowerName then Some (ret (VStr "Sample City"))
      else if includes "country" lowerName then Some (ret (VStr "Sample Country"))
      else if includes "description" lowerName || includes "comment" lowerName then
        Some (ret (VStr "Sample description"))
      else if includes "status" lowerName then Some (ret (VStr "active"))
      else if includes "type" lowerName || includes "category" lowerName then
        Some (ret (VStr "sample"))
      else None
  | None => None
  end.

(** [v > 0] for the [length] of an [enum]: [undefined] compares as NaN,
    the other values as the number they stand for (see [toNumber]). *)
Definition greaterThanZero (v : value) : result bool :=
  match v with
  | VUndefined => Ok false
  | _ => bindR (toNumber v) (fun q => Ok (negb (Qle_bool q 0)))
  end.

(** [if (enum && enum.length > 0) return enum[0]; return 'sample'].  The
    [enum] may be any value: for an array or a string [length] is the size;
    for an object it is the property of that name, and [enum[0]] the
    property [0], which is [undefined] when the object has none. *)
Definition enumOrSample (resolvedSchema : value) : M value :=
  let enum := get resolvedSchema "enum" in
  if truthy enum then
    bind (lift (greaterThanZero (get enum "length"))) (fun positive =>
      if positive : bool then ret (get enum "0") else ret (VStr "sample"))
  else ret (VStr "sample").

(** The name table of the [integer] case. *)
Definition integerByName (env : Env) (propertyName : option string) : option (M value) :=
  match givenName propertyName with
  | Some name =>
      let lowerName := toLowerCase name in
      if includes "id" lowerName then
        Some (bind nextId (fun n => ret (VNum (inject_Z n))))
      else if includes "count" lowerName || includes "quantity" lowerName then
        Some (ret (VNum 5))
      else if includes "age" lowerName then Some (ret (VNum 25))
      else if includes "year" lowerName then Some (ret (VNum (inject_Z (currentYear env))))
      else if includes "month" lowerName then
        Some (bind (randomUpTo env 12) (fun n => ret (VNum (inject_Z n))))
      else if includes "day" lowerName then
        Some (bind (randomUpTo env 28) (fun n => ret (VNum (inject_Z n))))
      else if includes "price" lowerName || includes "amount" lowerName then
        Some (ret (VNum 100))
      else None
  | None => None
  end.

(** The name table of the [number] case. *)
Definition numberByName (propertyName : option string) : option (M value) :=
  match givenName propertyName with
  | Some name =>
      let lowerName := toLowerCase name in
      if includes "price" lowerName || includes "amount" lowerName
         || includes "cost" lowerName then Some (ret (VNum (9999 # 100)))
      else if includes "rate" lowerName || includes "percentage" lowerName then
        Some (ret (VNum (15 # 100)))
      else if includes "weight" lowerName then Some (ret (VNum (3 # 2)))
      else if includes "height" lowerName then Some (ret (VNum (7 # 4)))
      else None
  | None => None
  end.

(** The [minimum]/[maximum] tail shared by the [integer] and [number]
    cases (their constants 1, 100 and 1.0, 100.0 are the same numbers). *)
Definition byBounds (resolvedSchema : value) : M value :=
  let minimum := get resolvedSchema "minimum" in
  let maximum := get resolvedSchema "maximum" in
  if negb (isUndefined minimum) then
    lift (bindR (toNumber minimum) (fun m => Ok (VNum (Math_max m 1))))
  else if negb (isUndefined maximum) then
    lift (bindR (toNumber maximum) (fun m => Ok (VNum (Math_min m 100))))
  else ret (VNum 1).

Definition booleanByName (propertyName : option string) : value :=
  match givenName propertyName with
  | Some name =>
      let lowerName := toLowerCase name in
      if includes "active" lowerName || includes "enabled" lowerName
         || includes "available" lowerName then VBool true
      else if includes "deleted" lowerName || includes "disabled" lowerName
              || includes "hidden" lowerName then VBool false
      else VBool true
  | None => VBool true
  end.

Definition orByName (byName : option (M value)) (otherwise : M value) : M value :=
  match byName with
  | Some m => m
  | None => otherwise
  end.

Definition typeIs (resolvedSchema : value) (t : string) : bool :=
  match get resolvedSchema "type" with
  | VStr t' => String.eqb t' t
  | _ => false
  end.

Section GenerateJMeterXml.

Variable env : Env.
Variable spec : value.

(** The [switch (resolvedSchema.type)] of [generateSampleJson]; [recur]
    stands for the nested calls. *)
Definition sampleByType (recur : value -> option string -> M value)
  (resolvedSchema : value) (propertyName : option string) : M value :=
  if typeIs resolvedSchema "object" then
    if truthy (get resolvedSchema "properties") then
      sampleProperties recur (entries (get resolvedSchema "properties")) []
    else ret (VObj [])
  else if typeIs resolvedSchema "array" then
    if truthy (get resolvedSchema "items") then
      bind (recur (get resolvedSchema "items") None) (fun item => ret (VArr [item]))
    else ret (VArr [])
  else if typeIs resolvedSchema "string" then
    orByName (stringByName propertyName) (enumOrSample resolvedSchema)
  else if typeIs resolvedSchema "integer" then
    orByName (integerByName env propertyName) (byBounds resolvedSchema)
  else if typeIs resolvedSchema "number" then
    orByName (numberByName propertyName) (byBounds resolvedSchema)
  else if typeIs resolvedSchema "boolean" then
    ret (booleanByName propertyName)
  else ret VNull.

(** The body of [generateSampleJson] after its first statement, for the
    resolved schema: [example], then a non-empty [examples] array, then the
    switch. *)
Definition sampleResolved (recur : value -> option string -> M value)
  (resolvedSchema : value) (propertyName : option string) : M value :=
  if negb (isUndefined (get resolvedSchema "example")) then
    ret (get resolvedSchema "example")
  else
    match get resolvedSchema "examples" with
    | VArr (first :: _) => ret first
    | _ => sampleByType recur resolvedSchema propertyName
    end.

(** [generateSampleJson(schema, propertyName)]; [fuel] bounds the depth of
    the nested calls. *)
Fixpoint generateSampleJson (fuel : nat) (schema : value)
  (propertyName : option string) : M value :=
  match fuel with
  | O => fail OutOfFuel
  | S fuel' =>
      bind (lift (resolveSchema schema spec)) (fun resolvedSchema =>
        sampleResolved (generateSampleJson fuel') resolvedSchema propertyName)
  end.

(** [generateRequestBody(requestBody)]: the body text, the empty string
    when there is no JSON schema, or [undefined] when [JSON.stringify] has
    nothing to print.  [idCounter] starts at 1 in every call; the
    [Math.random()] sequence goes on from call to call. *)
Definition generateRequestBody (fuel : nat) (requestBody : value) (drawn : nat)
  : result (value * nat) :=
  if negb (truthy (get requestBody "content")) then Ok (VStr EmptyString, drawn)
  else
    let jsonContent := get (get requestBody "content") "application/json" in
    if negb (truthy (get jsonContent "schema")) then Ok (VStr EmptyString, drawn)
    else
      bindR (generateSampleJson fuel (get jsonContent "schema") None
               {| idCounter := 1; draws := drawn |})
        (fun '(sampleData, s) => Ok (JSON_stringify sampleData, draws s)).

End GenerateJMeterXml.

(** *** The [operations] extraction *)

Record Operation : Type := {
  op_path : string;
  op_method : string;
  op_operationId : value;
  op_summary : value;
  op_parameters : value;
  op_requestBody : value;
  op_tags : value
}.

Definition httpMethods : list string :=
  ["get"; "post"; "put"; "delete"; "patch"; "head"; "options"].

(** [list.includes(s)] on a list of strings. *)
Definition includedIn (s : string) (l : list string) : bool :=
  existsb (String.eqb s) l.

(** The inner loop over the entries of one path item.  Reading
    [operation.operationId] throws when the operation is [null]. *)
Fixpoint pathItemOperations (path : string) (es : list (string * value))
  : result (list Operation) :=
  match es with
  | [] => Ok []
  | (method, operation) :: es' =>
      if includedIn method httpMethods then
        bindR (getProp operation "operationId") (fun operationId =>
          bindR (pathItemOperations path es') (fun ops =>
            Ok ({| op_path := path;
                   op_method := toUpperCase method;
                   op_operationId := operationId;
                   op_summary := get operation "summary";
                   op_parameters := get operation "parameters";
                   op_requestBody := get operation "requestBody";
                   op_tags := get operation "tags" |} :: ops)))
      else pathItemOperations path es'
  end.

(** [Object.entries(v)], which throws on [null] and [undefined]. *)
Definition Object_entries (v : value) : result (list (string * value)) :=
  if isNullish v then TypeError else Ok (entries v).

(** The outer loop over the entries of [paths]. *)
Fixpoint pathsOperations (es : list (string * value)) : result (list Operation) :=
  match es with
  | [] => Ok []
  | (path, pathItem) :: es' =>
      bindR (Object_entries pathItem) (fun inner =>
        bindR (pathItemOperations path inner) (fun ops =>
          bindR (pathsOperations es') (fun rest => Ok (ops ++ rest)%list)))
  end.

Definition operations (spec : value) : result (list Operation) :=
  pathsOperations (entries (orElse (get spec "paths") (VObj []))).

(** *** [urlParts] *)

(** The fields of a parsed [URL] object that the code reads. *)
Record URL : Type := {
  url_protocol : string;
  url_hostname : string;
  url_port : string;
  url_pathname : string
}.

Record UrlParts : Type := {
  protocol : string;
  domain : string;
  port : string;
  path : string
}.

Record JMeterConfig : Type := {
  threadCount : Z;
  rampUpTime : Z;
  loopCount : Z;
  baseUrl : value;
  testPlanName : string
}.

Section UrlParts.

(** [new URL(text)] of the host platform: [None] when it throws. *)
Variable parseURL : string -> option URL.

Definition urlParts (config : JMeterConfig) : result UrlParts :=
  match parseURL (toString (baseUrl config)) with
  | Some url =>
      Ok {| protocol := replace_first ":" EmptyString (url_protocol url);
            domain := url_hostname url;
            port := if negb (String.eqb (url_port url) EmptyString) then url_port url
                    else if String.eqb (url_protocol url) "https:" then "443" else "80";
            path := if negb (String.eqb (url_pathname url) "/") then url_pathname url
                    else EmptyString |}
  | None =>
      match baseUrl config with
      | VStr b =>
          Ok {| protocol := "https";
                domain := hd EmptyString (split_on "/" (stripScheme b));
                port := EmptyString;
                path := EmptyString |}
      | _ => TypeError
      end
  end.

End UrlParts.

(** *** [httpSamplers] *)

(** The values interpolated into one [HTTPSamplerProxy] element.
    [bodyData] is the text of the [Argument.value] property, present when
    the element carries [HTTPSampler.postBodyRaw] set to true. *)
Record Sampler : Type := {
  testname : string;
  bodyData : option string;
  s_domain : string;
  s_port : string;
  s_protocol : string;
  s_path : string;
  s_method : string
}.

Definition needsBody (method : string) : bool :=
  includedIn method ["POST"; "PUT"; "PATCH"].

(** [requestBody ? (raw body with requestBody.replace(...)) : (no body)] *)
Definition bodyDataProp (requestBody : value) : option string :=
  match requestBody with
  | VStr b => if String.eqb b EmptyString then None else Some (escapeQuotes b)
  | _ => None
  end.

Section HttpSamplers.

Variable env : Env.
Variable spec : value.
Variable parts : UrlParts.

(** The body of the [operations.map] callback. *)
Definition httpSampler (fuel : nat) (op : Operation) (drawn : nat)
  : result (Sampler * nat) :=
  let samplerName :=
    orElse (op_operationId op)
      (orElse (op_summary op) (VStr (op_method op ++ " " ++ op_path op))) in
  bindR (if needsBody (op_method op)
         then generateRequestBody env spec fuel (op_requestBody op) drawn
         else Ok (VStr EmptyString, drawn))
    (fun '(requestBody, drawn') =>
       Ok ({| testname := toString samplerName;
              bodyData := bodyDataProp requestBody;
              s_domain := domain parts;
              s_port := port parts;
              s_protocol := protocol parts;
              s_path := path parts ++ pathWithoutParams (op_path op);
              s_method := op_method op |}, drawn')).

Fixpoint httpSamplers (fuel : nat) (ops : list Operation) (drawn : nat)
  : result (list Sampler * nat) :=
  match ops with
  | [] => Ok ([], drawn)
  | op :: ops' =>
      bindR (httpSampler fuel op drawn) (fun '(smp, drawn') =>
        bindR (httpSamplers fuel ops' drawn') (fun '(rest, drawn'') =>
          Ok (smp :: rest, drawn'')))
  end.

End HttpSamplers.

(** [generateJMeterXml(spec, config)] up to the list of samplers that the
    returned template interpolates. *)
Definition generateJMeterXml (parseURL : string -> option URL) (env : Env)
  (fuel : nat) (spec : value) (config : JMeterConfig) : result (list Sampler) :=
  bindR (urlParts parseURL config) (fun parts =>
    bindR (operations spec) (fun ops =>
      bindR (httpSamplers env spec parts fuel ops 0) (fun '(samplers, _) =>
        Ok samplers))).

(** ** [handleFileUpload]: the base URL taken from the uploaded document *)

Definition withBaseUrl (prev : JMeterConfig) (b : value) : JMeterConfig :=
  {| threadCount := threadCount prev;
     rampUpTime := rampUpTime prev;
     loopCount := loopCount prev;
     baseUrl := b;
     testPlanName := testPlanName prev |}.

(** The configuration after an upload; [parsed] is [None] when the parser
    throws, which the inner [catch] swallows. *)
Definition handleFileUpload (parsed : option value) (prev : JMeterConfig)
  : JMeterConfig :=
  match parsed with
  | None => prev
  | Some parsedSpec =>
      let url := get (get (get parsedSpec "servers") "0") "url" in
      if truthy url then withBaseUrl prev url
      else if truthy (get parsedSpec "host") then
        let scheme := orElse (get (get parsedSpec "schemes") "0") (VStr "https") in
        withBaseUrl prev
          (VStr (toString scheme ++ "://" ++ toString (get parsedSpec "host")
                   ++ toString (orElse (get parsedSpec "basePath") (VStr EmptyString))))
      else prev
  end.

(** ** [handleGenerateJMeter] *)

(** White space of [String.prototype.trim] and of the class [\s]: tab, line
    feed, vertical tab, form feed, carriage return, space and the
    no-break space. *)
Definition isSpace (c : ascii) : bool :=
  let n := nat_of_ascii c in
  ((9 <=? n) && (n <=? 13) || (n =? 32) || (n =? 160))%nat.

Fixpoint trimStart (s : string) : string :=
  match s with
  | EmptyString => EmptyString
  | String c s' => if isSpace c then trimStart s' else s
  end.

Fixpoint trimEnd (s : string) : string :=
  match s with
  | EmptyString => EmptyString
  | String c s' =>
      match trimEnd s' with
      | EmptyString => if isSpace c then EmptyString else str1 c
      | t => String c t
      end
  end.

(** [s.trim()] *)
Definition trim (s : string) : string := trimEnd (trimStart s).

(** [typeof v === 'object'] *)
Definition typeofObject (v : value) : bool :=
  match v with
  | VNull | VArr _ | VObj _ => true
  | _ => false
  end.

(** The four errors that [handleGenerateJMeter] throws itself. *)
Inductive Rejection : Type :=
| InvalidFormat
| InvalidSpecification
| MissingVersion
| NoPaths.

Definition rejectionMessage (why : Rejection) : string :=
  match why with
  | InvalidFormat => "Invalid JSON or YAML format"
  | InvalidSpecification => "Invalid specification format"
  | MissingVersion =>
      "Not a valid OpenAPI/Swagger specification. Missing 'openapi' or 'swagger' field."
  | NoPaths => "No paths found in the specification"
  end.

(** The checks between parsing and generation, in their order; [None] when
    the document passes. *)
Definition validate (spec : value) : option Rejection :=
  if negb (truthy spec) || negb (typeofObject spec) then Some InvalidSpecification
  else if negb (truthy (get spec "openapi")) && negb (truthy (get spec "swagger"))
  then Some MissingVersion
  else if negb (truthy (get spec "paths")) || negb (typeofObject (get spec "paths"))
  then Some NoPaths
  else None.

(** What one click on the generate button ends in: nothing to do (blank
    content), one of the four errors, or the run of [generateJMeterXml],
    whose exceptions the handler catches and reports. *)
Inductive Generation : Type :=
| NothingToDo
| Rejected (why : Rejection)
| Ran (samplers : result (list Sampler)).

Section HandleGenerateJMeter.

(** [JSON.parse] and [yaml.load]: [None] when they throw. *)
Variable parseJSON : string -> option value.
Variable parseYAML : string -> option value.
Variable parseURL : string -> option URL.
Variable env : Env.

Definition parseSpec (swaggerContent : string) : option value :=
  match parseJSON swaggerContent with
  | Some spec => Some spec
  | None => parseYAML swaggerContent
  end.

Definition handleGenerateJMeter (fuel : nat) (swaggerContent : string)
  (config : JMeterConfig) : Generation :=
  if String.eqb (trim swaggerContent) EmptyString then NothingToDo
  else
    match parseSpec swaggerContent with
    | None => Rejected InvalidFormat
    | Some spec =>
        match validate spec with
        | Some why => Rejected why
        | None => Ran (generateJMeterXml parseURL env fuel spec config)
        end
    end.

End HandleGenerateJMeter.

(** ** [handleDownload] *)

(** [s.replace(/\s+/g, '_')]: every maximal run of white space becomes one
    underscore.  [inRun] tells that the character before was white space,
    so that the run it belongs to has its underscore already. *)
Fixpoint underscoreFrom (inRun : bool) (s : string) : string :=
  match s with
  | EmptyString => EmptyString
  | String c s' =>
      if isSpace c then
        if inRun then underscoreFrom true s' else String "_" (underscoreFrom true s')
      else String c (underscoreFrom false s')
  end.

Definition underscoreSpaces (s : string) : string := underscoreFrom false s.

(** The name of the downloaded file. *)
Definition downloadName (config : JMeterConfig) : string :=
  underscoreSpaces (testPlanName config) ++ ".jmx".

(** [handleDownload]: nothing when there is no generated text, else the
    file name and the content of the download. *)
Definition handleDownload (jmeterXml : string) (config : JMeterConfig)
  : option (string * string) :=
  if String.eqb jmeterXml EmptyString then None
  else Some (downloadName config, jmeterXml).

(** ** The earlier revision of [generateJMeterXml]

    The second source file is the component before request bodies and the
    base-URL parts were introduced: its samplers leave domain, port and
    protocol empty, carry no body, and their path is the rewritten
    operation path alone. *)
Module Earlier.

Definition httpSampler (op : Operation) : Sampler :=
  let samplerName :=
    orElse (op_operationId op)
      (orElse (op_summary op) (VStr (op_method op ++ " " ++ op_path op))) in
  {| testname := toString samplerName;
     bodyData := None;
     s_domain := EmptyString;
     s_port := EmptyString;
     s_protocol := EmptyString;
     s_path := pathWithoutParams (op_path op);
     s_method := op_method op |}.

Definition generateJMeterXml (spec : value) : result (list Sampler) :=
  bindR (operations spec) (fun ops => Ok (map httpSampler ops)).

End Earlier.

(** ** Predicates used to state the properties *)


(** A word character of a regular expression: a letter, a digit or the
    underscore. *)
Definition isWordChar (c : ascii) : bool :=
  let n := nat_of_ascii c in
  ((48 <=? n) && (n <=? 57) || (65 <=? n) && (n <=? 90)
   || (97 <=? n) && (n <=? 122) || (n =? 95))%nat.

Fixpoint wordChars (s : string) : bool :=
  match s with
  | EmptyString => true
  | String c s' => isWordChar c && wordChars s'
  end.



(** Every path item and every operation under a method key is a value with
    properties (not [null]); what sits under the other keys is free. *)
Definition wellFormedPaths (spec : value) : bool :=
  forallb (fun pathEntry =>
      negb (isNullish (snd pathEntry))
      && forallb (fun methodEntry =>
             implb (includedIn (fst methodEntry) httpMethods)
                   (negb (isNullish (snd methodEntry))))
           (entries (snd pathEntry)))
    (entries (orElse (get spec "paths") (VObj []))).


(** The operation declares [requestBody.content["application/json"].schema]. *)
Definition declaresJsonSchema (requestBody : value) : bool :=
  truthy (get (get (get requestBody "content") "application/json") "schema").




(** The nesting depth of a value. *)
Fixpoint height (v : value) : nat :=
  match v with
  | VArr elems => S (fold_right (fun e n => Nat.max (height e) n) O elems)
  | VObj props => S (fold_right (fun kv n => Nat.max (height (snd kv)) n) O props)
  | _ => O
  end.

(** No object inside [v] has a truthy [$ref]. *)
Fixpoint refFree (v : value) : bool :=
  match v with
  | VArr elems => forallb refFree elems
  | VObj props =>
      negb (truthy (assoc "$ref" props)) && forallb (fun kv => refFree (snd kv)) props
  | _ => true
  end.

(** [m] does not run into the bound on the call depth. *)
Definition finishes (m : M value) : Prop := forall s, m s <> OutOfFuel.

(** Whatever [m1] does within the bound, [m2] does too. *)
Definition extends (m1 m2 : M value) : Prop :=
  forall s, m1 s <> OutOfFuel -> m2 s = m1 s.

(** [typeof v === 'object'] for a truthy [v]: an object or an array. *)
Definition objectOrArray (v : value) : bool :=
  match v with
  | VArr _ | VObj _ => true
  | _ => false
  end.

(** Some character of [s] is white space. *)
Fixpoint anySpace (s : string) : bool :=
  match s with
  | EmptyString => false
  | String c s' => isSpace c || anySpace s'
  end.

(** [text] is [raw] with every double quote written [&quot;] and every
    other character kept. *)
Inductive QuotesEscaped : string -> string -> Prop :=
| escaped_end : QuotesEscaped EmptyString EmptyString
| escaped_quote (raw text : string) :
    QuotesEscaped raw text ->
    QuotesEscaped (String dquote raw) ("&quot;" ++ text)
| escaped_other (c : ascii) (raw text : string) :
    c <> dquote ->
    QuotesEscaped raw text ->
    QuotesEscaped (String c raw) (String c text).

(** Every character of [s] is white space. *)
Fixpoint onlySpace (s : string) : bool :=
  match s with
  | EmptyString => true
  | String c s' => isSpace c && onlySpace s'
  end.

(** [s] begins with a white-space character. *)
Definition startsWithSpace (s : string) : bool :=
  match s with
  | EmptyString => false
  | String c _ => isSpace c
  end.

(** The synthesis of [p] under the name [k] returns a value or runs out of
    depth; it does not end in an error. *)
Definition noError (gen : nat -> value -> option string -> M value)
  (k : string) (p : value) : Prop :=
  forall fuel s, (exists res, gen fuel p (Some k) s = Ok res)
                 \/ gen fuel p (Some k) s = OutOfFuel.

(** Case analysis on every condition of a name table. *)
Ltac by_cases :=
  repeat match goal with
         | |- context [if ?b then _ else _] => destruct b
         end.

(** ** Sample documents *)

Definition obj1 (key : string) (v : value) : value := VObj [(key, v)].

Definition refTo (pointer : string) : value := obj1 "$ref" (VStr pointer).

Definition jsonBody (schema : value) : value :=
  obj1 "content" (obj1 "application/json" (obj1 "schema" schema)).

Definition env2025 : Env := {| currentYear := 2025; random := fun _ => 1 # 2 |}.

Definition state0 : State := {| idCounter := 1; draws := 0 |}.

(** A stand-in for the platform's URL parser that knows one address. *)
Definition sampleParseURL (text : string) : option URL :=
  if String.eqb text "https://api.example.com/v1" then
    Some {| url_protocol := "https:";
            url_hostname := "api.example.com";
            url_port := EmptyString;
            url_pathname := "/v1" |}
  else None.

Definition sampleConfig : JMeterConfig :=
  {| threadCount := 10;
     rampUpTime := 10;
     loopCount := 1;
     baseUrl := VStr "https://api.example.com/v1";
     testPlanName := "API Performance Test" |}.

(** The configuration of a plan with the given name. *)
Definition planNamed (name : string) : JMeterConfig :=
  {| threadCount := 10;
     rampUpTime := 10;
     loopCount := 1;
     baseUrl := VStr "https://api.example.com/v1";
     testPlanName := name |}.

(** [Node] has a property [next] that refers to [Node] itself. *)
Definition nodeSchema : value :=
  VObj [("type", VStr "object");
        ("properties", VObj [("value", obj1 "type" (VStr "string"));
                             ("next", refTo "#/components/schemas/Node")])].

Definition cyclicSpec : value :=
  VObj [("openapi", VStr "3.0.0");
        ("paths", VObj []);
        ("components", obj1 "schemas" (obj1 "Node" nodeSchema))].

(** One GET and one POST under a path item that also has a [parameters]
    key; the POST body refers to a schema that does not exist. *)
Definition danglingSpec : value :=
  VObj [("openapi", VStr "3.0.0");
        ("paths",
         obj1 "/users/{id}"
           (VObj [("parameters", VNull);
                  ("get", obj1 "operationId" (VStr "getUser"));
                  ("post", obj1 "requestBody"
                             (jsonBody (refTo "#/components/schemas/Missing")))]));
        ("components", obj1 "schemas" (VObj []))].

Definition emailEnumSchema : value :=
  VObj [("type", VStr "string"); ("enum", VArr [VStr "a@b.c"; VStr "c@d.e"])].

Definition boundedIntegerSchema : value :=
  VObj [("type", VStr "integer"); ("minimum", VNum (-5)); ("maximum", VNum 0)].


Definition plainSchema : value :=
  VObj [("type", VStr "object");
        ("properties", VObj [("title", obj1 "type" (VStr "string"));
                             ("year", obj1 "type" (VStr "integer"));
                             ("tags", VObj [("type", VStr "array");
                                            ("items", obj1 "type" (VStr "string"))])])].


Definition sampleParts : UrlParts :=
  {| protocol := "https"; domain := "api.example.com"; port := "443"; path := "/v1" |}.

Definition userSchema : value :=
  VObj [("type", VStr "object");
        ("properties", VObj [("id", obj1 "type" (VStr "integer"));
                             ("name", obj1 "type" (VStr "string"))])].

(** One GET without a body and one POST with a JSON object body. *)
Definition usersSpec : value :=
  VObj [("openapi", VStr "3.0.0");
        ("paths",
         obj1 "/users"
           (VObj [("get", obj1 "summary" (VStr "List users"));
                  ("post", obj1 "requestBody" (jsonBody userSchema))]))].


Definition postUsers : Operation :=
  {| op_path := "/users";
     op_method := "POST";
     op_operationId := VUndefined;
     op_summary := VUndefined;
     op_parameters := VUndefined;
     op_requestBody := jsonBody userSchema;
     op_tags := VUndefined |}.

(** [Alias] is a reference to [User], not a schema of its own. *)
Definition aliasSpec : value :=
  VObj [("openapi", VStr "3.0.0");
        ("paths", VObj []);
        ("components",
         obj1 "schemas" (VObj [("User", userSchema);
                               ("Alias", refTo "#/components/schemas/User")]))].

(** The operation under [get] is null. *)
Definition nullOperationSpec : value :=
  VObj [("openapi", VStr "3.0.0");
        ("paths", obj1 "/users" (VObj [("get", VNull);
                                       ("post", obj1 "summary" (VStr "Add"))]))].

(** A parser that reads nothing. *)
Definition noParse (text : string) : option value := None.

(** The text that [JSON.stringify] prints for a document. *)
Definition textOf (document : value) : string :=
  match JSON_stringify document with
  | VStr text => text
  | _ => EmptyString
  end.

(** A stand-in for [JSON.parse] that knows the text of one document. *)
Definition sampleParseJSON (text : string) : option value :=
  if String.eqb text (textOf cyclicSpec) then Some cyclicSpec else None.

(** [Order] refers to [Customer] and [Customer] back to [Order]. *)
Definition mutualSpec : value :=
  VObj [("openapi", VStr "3.0.0");
        ("paths", VObj []);
        ("components",
         obj1 "schemas"
           (VObj [("Order",
                   VObj [("type", VStr "object");
                         ("properties",
                          obj1 "customer" (refTo "#/components/schemas/Customer"))]);
                  ("Customer",
                   VObj [("type", VStr "object");
                         ("properties",
                          VObj [("name", obj1 "type" (VStr "string"));
                                ("lastOrder", refTo "#/components/schemas/Order")])])]))].




(** An object schema one of whose properties is named [__proto__]. *)
Definition protoSchema : value :=
  VObj [("type", VStr "object");
        ("properties", VObj [("id", obj1 "type" (VStr "integer"));
                             ("__proto__", obj1 "type" (VStr "string"));
                             ("name", obj1 "type" (VStr "string"))])].

Definition serversSpec : value :=
  VObj [("openapi", VStr "3.0.0");
        ("servers", VArr [obj1 "url" (VStr "https://api.example.com/v1")]);
        ("paths", VObj [])].

Definition ownConfig : JMeterConfig :=
  withBaseUrl sampleConfig (VStr "https://staging.internal/v2").

(** * Properties *)

(** ** The model at work *)

(** The seven method keys and what the samplers show for them. *)
Example methods_upper_case :
  map toUpperCase httpMethods
    = ["GET"; "POST"; "PUT"; "DELETE"; "PATCH"; "HEAD"; "OPTIONS"].
Proof. reflexivity. Qed.

(** A base URL that parses: protocol, host, default port and path prefix. *)
Example url_parts_parsed :
  urlParts sampleParseURL sampleConfig = Ok sampleParts.
Proof. reflexivity. Qed.

(** A base URL that does not parse: the host is what precedes the first
    slash once the scheme is removed; port and path are empty. *)
Example url_parts_fallback :
  urlParts sampleParseURL (withBaseUrl sampleConfig (VStr "api.example.com/v1"))
    = Ok {| protocol := "https"; domain := "api.example.com";
            port := EmptyString; path := EmptyString |}.
Proof. reflexivity. Qed.

(** A document with an empty [paths] table compiles to no sampler. *)
Example no_paths_no_sampler :
  generateJMeterXml sampleParseURL env2025 0 cyclicSpec sampleConfig = Ok [].
Proof. reflexivity. Qed.

(** Identifier fields of one body share the counter, which starts at 1. *)
Example identifiers_count_up :
  generateSampleJson env2025 cyclicSpec 2
    (VObj [("type", VStr "object");
           ("properties", VObj [("id", obj1 "type" (VStr "integer"));
                                ("parentId", obj1 "type" (VStr "string"))])])
    None state0
  = Ok (VObj [("id", VNum 1); ("parentId", VStr "2")],
        {| idCounter := 3; draws := 0 |}).
Proof. reflexivity. Qed.

(** ** The placeholder rewrite *)

Lemma wordChar_not_close (c : ascii) :
  isWordChar c = true -> Ascii.eqb c "}" = false.
Proof.
  intro Hw. destruct (Ascii.eqb c "}") eqn:E; [|reflexivity].
  apply Ascii.eqb_eq in E. subst c. discriminate Hw.
Qed.

Lemma span_open_word (name rest : string) :
  wordChars name = true ->
  span_open (name ++ String "}" rest) = (name, String "}" rest).
Proof.
  induction name as [|c name IH]; intro Hw.
  - reflexivity.
  - cbn [wordChars] in Hw. apply andb_true_iff in Hw as [Hc Hn].
    cbn [append span_open]. rewrite (wordChar_not_close c Hc), (IH Hn).
    reflexivity.
Qed.

Lemma rewrite_from_empty (n : nat) : rewrite_from n EmptyString = EmptyString.
Proof. destruct n; reflexivity. Qed.

Lemma match_placeholder_word (name rest : string) :
  wordChars name = true -> name <> EmptyString ->
  match_placeholder (String "{" (name ++ String "}" rest)) = Some (name, rest).
Proof.
  intros Hw Hne. unfold match_placeholder. rewrite (span_open_word name rest Hw).
  destruct name; [congruence | reflexivity].
Qed.

Lemma length_append (a b : string) :
  String.length (a ++ b) = (String.length a + String.length b)%nat.
Proof. induction a; cbn; [reflexivity | now rewrite IHa]. Qed.

Lemma rewrite_braced (name : string) :
  wordChars name = true -> name <> EmptyString ->
  pathWithoutParams (String "{" (name ++ "}")) = String "$" (String "{" (name ++ "}")).
Proof.
  intros Hw Hne. unfold pathWithoutParams. cbn [String.length rewrite_from].
  rewrite (match_placeholder_word name EmptyString Hw Hne), rewrite_from_empty.
  cbn [append]. reflexivity.
Qed.

Lemma append_inj_l (a b c : string) : a ++ c = b ++ c -> a = b.
Proof.
  revert b. induction a as [|x a IH]; intros [|y b] H.
  - reflexivity.
  - exfalso. apply (f_equal String.length) in H. cbn in H.
    rewrite length_append in H. lia.
  - exfalso. apply (f_equal String.length) in H. cbn in H.
    rewrite length_append in H. lia.
  - cbn in H. injection H as -> H. f_equal. now apply IH.
Qed.

(** C5 (as the code has it). For every non-empty identifier made of word
    characters the rewrite sends [{name}] to [${name}], one-to-one; applied
    to the already rewritten [${name}] it does not leave it unchanged but
    yields [$${name}]. *)
Theorem placeholder_rewrite_word (name : string) :
  wordChars name = true -> name <> EmptyString ->
  pathWithoutParams ("{" ++ name ++ "}") = "${" ++ name ++ "}"
  /\ pathWithoutParams ("${" ++ name ++ "}") = "$${" ++ name ++ "}"
  /\ (forall other, wordChars other = true -> other <> EmptyString ->
        pathWithoutParams ("{" ++ other ++ "}") = pathWithoutParams ("{" ++ name ++ "}") ->
        other = name).
Proof.
  intros Hw Hne. split; [|split].
  - exact (rewrite_braced name Hw Hne).
  - unfold pathWithoutParams. cbn [append String.length rewrite_from match_placeholder].
    f_equal. exact (rewrite_braced name Hw Hne).
  - intros other Hw' Hne' Heq.
    change ("{" ++ other ++ "}") with (String "{" (other ++ "}")) in Heq.
    change ("{" ++ name ++ "}") with (String "{" (name ++ "}")) in Heq.
    rewrite (rewrite_braced other Hw' Hne'), (rewrite_braced name Hw Hne) in Heq.
    injection Heq as Heq. now apply append_inj_l in Heq.
Qed.

Lemma placeholder_rewrite_word_witness :
  pathWithoutParams "{userId}" = "${userId}"
  /\ pathWithoutParams "${userId}" = "$${userId}"
  /\ (forall other, wordChars other = true -> other <> EmptyString ->
        pathWithoutParams ("{" ++ other ++ "}") = pathWithoutParams "{userId}" ->
        other = "userId").
Proof.
  apply (placeholder_rewrite_word "userId"); [reflexivity | discriminate].
Defined.

(** C5, refuted as stated: the rewrite is not idempotent on rewritten
    text. *)
Lemma placeholder_rewrite_not_idempotent :
  pathWithoutParams "/users/{id}" = "/users/${id}"
  /\ pathWithoutParams "/users/${id}" = "/users/$${id}"
  /\ pathWithoutParams (pathWithoutParams "/users/{id}") <> pathWithoutParams "/users/{id}".
Proof. repeat split. vm_compute. discriminate. Qed.

Lemma span_open_length (s run rest : string) :
  span_open s = (run, rest) ->
  String.length s = (String.length run + String.length rest)%nat.
Proof.
  revert run rest. induction s as [|c s IH]; intros run rest H; cbn in H.
  - injection H as <- <-. reflexivity.
  - destruct (Ascii.eqb c "}").
    + injection H as <- <-. reflexivity.
    + destruct (span_open s) as [run' rest'] eqn:E. injection H as <- <-.
      cbn. now rewrite (IH run' rest' eq_refl).
Qed.

Lemma match_placeholder_shorter (s name rest : string) :
  match_placeholder s = Some (name, rest) ->
  (String.length rest < String.length s)%nat.
Proof.
  unfold match_placeholder. destruct s as [|c s]; [discriminate|].
  destruct (Ascii.eqb c "{") eqn:Ec.
  - apply Ascii.eqb_eq in Ec. subst c.
    destruct (span_open s) as [run rest'] eqn:E.
    pose proof (span_open_length s run rest' E) as Hlen.
    destruct run as [|r run]; [discriminate|].
    destruct rest' as [|r' rest'']; [discriminate|].
    destruct (Ascii.eqb r' "}") eqn:Er.
    + apply Ascii.eqb_eq in Er. subst r'. intro H. injection H as _ <-.
      cbn in *. lia.
    + intro H. exfalso.
      destruct r' as [[] [] [] [] [] [] [] []]; try discriminate H.
      discriminate Er.
  - intro H. exfalso.
    destruct c as [[] [] [] [] [] [] [] []]; try discriminate H.
    discriminate Ec.
Qed.

(** The scan budget of [pathWithoutParams] is enough: a larger one gives
    the same text. *)
Lemma rewrite_from_enough (n m : nat) (s : string) :
  (String.length s <= n)%nat -> (String.length s <= m)%nat ->
  rewrite_from n s = rewrite_from m s.
Proof.
  revert m s. induction n as [|n IH]; intros m s Hn Hm.
  - destruct s; [|cbn in Hn; lia]. now rewrite !rewrite_from_empty.
  - destruct m as [|m].
    + destruct s; [|cbn in Hm; lia]. reflexivity.
    + cbn [rewrite_from]. destruct (match_placeholder s) as [[name rest]|] eqn:E.
      * apply match_placeholder_shorter in E.
        rewrite (IH m rest); [reflexivity | lia | lia].
      * destruct s as [|c s]; [reflexivity|]. cbn in Hn, Hm.
        rewrite (IH m s); [reflexivity | lia | lia].
Qed.

(** ** One step of [generateSampleJson] *)

Lemma typeIs_other (r : value) (t u : string) :
  typeIs r t = true -> String.eqb t u = false -> typeIs r u = false.
Proof.
  unfold typeIs. destruct (get r "type"); try discriminate.
  intros Ht Hne. apply String.eqb_eq in Ht. now subst.
Qed.

Lemma get_array_length (elems : list value) :
  get (VArr elems) "length" = VNum (inject_Z (Z.of_nat (List.length elems))).
Proof. reflexivity. Qed.

Lemma get_array_first (first : value) (rest : list value) :
  get (VArr (first :: rest)) "0" = first.
Proof. reflexivity. Qed.

Lemma length_positive (n : nat) : Qle_bool (inject_Z (Z.of_nat (S n))) 0 = false.
Proof.
  unfold Qle_bool, inject_Z. cbn [Qnum Qden].
  apply Z.leb_gt. lia.
Qed.

Lemma enumOrSample_array (r first : value) (rest : list value) (s : State) :
  get r "enum" = VArr (first :: rest) ->
  enumOrSample r s = Ok (first, s).
Proof.
  intro He. unfold enumOrSample. rewrite He. cbn [truthy].
  rewrite get_array_length, get_array_first. cbn [List.length].
  unfold bind, lift, greaterThanZero. cbn [toNumber bindR].
  now rewrite length_positive.
Qed.

(** What a call does once the schema is resolved and has neither
    [example] nor a non-empty [examples] array. *)
Lemma generate_step (env : Env) (spec : value) (fuel : nat) (schema r : value)
  (name : option string) (s : State) :
  resolveSchema schema spec = Ok r ->
  get r "example" = VUndefined ->
  (forall x l, get r "examples" <> VArr (x :: l)) ->
  generateSampleJson env spec (S fuel) schema name s =
    sampleByType env (generateSampleJson env spec fuel) r name s.
Proof.
  intros Hr Hex Hexs. cbn [generateSampleJson]. unfold bind at 1, lift.
  rewrite Hr. cbn [bindR]. unfold sampleResolved. rewrite Hex. cbn [isUndefined negb].
  destruct (get r "examples") as [| | | | |[|x l]|] eqn:E; try reflexivity.
  exfalso. exact (Hexs x l eq_refl).
Qed.

(** ** String schemas with an enum *)

(** C3 (as the code has it). For a string-typed schema with no example
    and no examples that declares a non-empty enum, synthesis consults the
    name table first: it returns the table's value when the property name
    matches an entry, and the first enum value exactly when no name is
    given or the name matches no entry. *)
Theorem enum_first_unless_named (env : Env) (spec : value) (fuel : nat)
  (schema r : value) (name : option string) (first : value) (rest : list value)
  (s : State) :
  resolveSchema schema spec = Ok r ->
  get r "example" = VUndefined ->
  (forall x l, get r "examples" <> VArr (x :: l)) ->
  typeIs r "string" = true ->
  get r "enum" = VArr (first :: rest) ->
  generateSampleJson env spec (S fuel) schema name s =
    match stringByName name with
    | Some byName => byName s
    | None => Ok (first, s)
    end.
Proof.
  intros Hr Hex Hexs Ht He.
  rewrite (generate_step env spec fuel schema r name s Hr Hex Hexs).
  unfold sampleByType.
  rewrite (typeIs_other r "string" "object" Ht eq_refl).
  rewrite (typeIs_other r "string" "array" Ht eq_refl), Ht.
  unfold orByName. destruct (stringByName name); [reflexivity|].
  exact (enumOrSample_array r first rest s He).
Qed.

Lemma enum_first_unless_named_witness :
  generateSampleJson env2025 cyclicSpec 1 emailEnumSchema (Some "contact") state0
    = Ok (VStr "a@b.c", state0)
  /\ generateSampleJson env2025 cyclicSpec 1 emailEnumSchema (Some "email") state0
    = Ok (VStr "sample@example.com", state0).
Proof.
  split.
  - apply (enum_first_unless_named env2025 cyclicSpec 0 emailEnumSchema emailEnumSchema
             (Some "contact") (VStr "a@b.c") [VStr "c@d.e"] state0);
      try reflexivity.
    intros x l H. discriminate H.
  - apply (enum_first_unless_named env2025 cyclicSpec 0 emailEnumSchema emailEnumSchema
             (Some "email") (VStr "a@b.c") [VStr "c@d.e"] state0);
      try reflexivity.
    intros x l H. discriminate H.
Defined.

(** C3, refuted as stated: a property named email with an enum gets the
    fixed email string, not the first enum value. *)
Lemma enum_named_email_counterexample :
  get emailEnumSchema "enum" = VArr [VStr "a@b.c"; VStr "c@d.e"]
  /\ generateSampleJson env2025 cyclicSpec 1 emailEnumSchema (Some "email") state0
       = Ok (VStr "sample@example.com", state0)
  /\ VStr "sample@example.com" <> VStr "a@b.c".
Proof. repeat split. discriminate. Qed.

(** ** References that do not resolve *)

Lemma walk_undefined (segments : list string) : walk VUndefined segments = VUndefined.
Proof. induction segments as [|x l IH]; [reflexivity | exact IH]. Qed.

Lemma walk_app (spec : value) (before after : list string) :
  walk spec (before ++ after) = walk (walk spec before) after.
Proof. apply fold_left_app. Qed.

Lemma truthy_string (p : string) : p <> EmptyString -> truthy (VStr p) = true.
Proof. intro H. cbn. destruct p; [congruence | reflexivity]. Qed.

Lemma get_not_nullish (v : value) (key : string) :
  get v key <> VUndefined -> isNullish v = false.
Proof. destruct v; cbn; congruence. Qed.

(** C2 (as the code has it). When a segment of the pointer of a reference
    marker is missing on the way from the document root, the marker
    resolves to the empty schema and the node synthesizes to null; nothing
    is raised and the run goes on with its state untouched. *)
Theorem unresolved_ref_is_empty_schema (env : Env) (spec schema : value)
  (pointer : string) (before after : list string) (fuel : nat)
  (name : option string) (s : State) :
  get schema "$ref" = VStr pointer ->
  pointer <> EmptyString ->
  split_on "/" (replace_first "#/" EmptyString pointer) = (before ++ after)%list ->
  walk spec before = VUndefined ->
  resolveSchema schema spec = Ok (VObj [])
  /\ generateSampleJson env spec (S fuel) schema name s = Ok (VNull, s).
Proof.
  intros Href Hne Hsplit Hmiss.
  assert (Hres : resolveSchema schema spec = Ok (VObj [])).
  { unfold resolveSchema, getProp.
    rewrite (get_not_nullish schema "$ref") by (rewrite Href; discriminate).
    cbn [bindR]. rewrite Href, (truthy_string pointer Hne), Hsplit.
    now rewrite walk_app, Hmiss, walk_undefined. }
  split; [exact Hres|].
  rewrite (generate_step env spec fuel schema (VObj []) name s Hres eq_refl).
  - reflexivity.
  - intros x l H. discriminate H.
Qed.

Lemma unresolved_ref_is_empty_schema_witness :
  resolveSchema (refTo "#/components/schemas/Missing") danglingSpec = Ok (VObj [])
  /\ generateSampleJson env2025 danglingSpec 1 (refTo "#/components/schemas/Missing")
       (Some "owner") state0 = Ok (VNull, state0).
Proof.
  apply (unresolved_ref_is_empty_schema env2025 danglingSpec
           (refTo "#/components/schemas/Missing") "#/components/schemas/Missing"
           ["components"; "schemas"; "Missing"] [] 0 (Some "owner") state0);
    [reflexivity | discriminate | reflexivity | reflexivity].
Defined.

(** C2, refuted as stated: the document whose POST body refers to a schema
    that does not exist compiles, and the POST sampler carries the body
    text null. *)
Lemma unresolved_ref_compiles_counterexample :
  walk danglingSpec ["components"; "schemas"; "Missing"] = VUndefined
  /\ generateJMeterXml sampleParseURL env2025 2 danglingSpec sampleConfig =
     Ok [ {| testname := "getUser";
             bodyData := None;
             s_domain := "api.example.com";
             s_port := "443";
             s_protocol := "https";
             s_path := "/v1/users/${id}";
             s_method := "GET" |};
          {| testname := "POST /users/{id}";
             bodyData := Some "null";
             s_domain := "api.example.com";
             s_port := "443";
             s_protocol := "https";
             s_path := "/v1/users/${id}";
             s_method := "POST" |} ].
Proof. split; reflexivity. Qed.

(** ** The base URL after an upload *)

(** C4 (as the code has it). When the uploaded document has a truthy
    [servers[0].url] or a truthy [host], the configured base URL is replaced
    by the one derived from the document, whatever it was before; the other
    settings are unchanged. *)
Theorem upload_replaces_base_url (parsedSpec : value) (prev : JMeterConfig) :
  truthy (get (get (get parsedSpec "servers") "0") "url") = true
  \/ truthy (get parsedSpec "host") = true ->
  let next := handleFileUpload (Some parsedSpec) prev in
  baseUrl next =
    (if truthy (get (get (get parsedSpec "servers") "0") "url")
     then get (get (get parsedSpec "servers") "0") "url"
     else VStr (toString (orElse (get (get parsedSpec "schemes") "0") (VStr "https"))
                  ++ "://" ++ toString (get parsedSpec "host")
                  ++ toString (orElse (get parsedSpec "basePath") (VStr EmptyString))))
  /\ (forall other, baseUrl (handleFileUpload (Some parsedSpec) other) = baseUrl next)
  /\ threadCount next = threadCount prev
  /\ rampUpTime next = rampUpTime prev
  /\ loopCount next = loopCount prev
  /\ testPlanName next = testPlanName prev.
Proof.
  intros H next. subst next. unfold handleFileUpload.
  destruct (truthy (get (get (get parsedSpec "servers") "0") "url")) eqn:Hu.
  - repeat split.
  - destruct H as [H|H]; [discriminate|]. rewrite H. repeat split.
Qed.

Lemma upload_replaces_base_url_witness :
  baseUrl (handleFileUpload (Some serversSpec) ownConfig)
    = VStr "https://api.example.com/v1"
  /\ (forall other, baseUrl (handleFileUpload (Some serversSpec) other)
                    = baseUrl (handleFileUpload (Some serversSpec) ownConfig))
  /\ threadCount (handleFileUpload (Some serversSpec) ownConfig) = threadCount ownConfig
  /\ rampUpTime (handleFileUpload (Some serversSpec) ownConfig) = rampUpTime ownConfig
  /\ loopCount (handleFileUpload (Some serversSpec) ownConfig) = loopCount ownConfig
  /\ testPlanName (handleFileUpload (Some serversSpec) ownConfig) = testPlanName ownConfig.
Proof.
  apply (upload_replaces_base_url serversSpec ownConfig). left. reflexivity.
Defined.

(** C4, refuted as stated: a base URL set by the caller is overwritten by
    the upload of a document that declares servers. *)
Lemma upload_overrides_counterexample :
  baseUrl ownConfig = VStr "https://staging.internal/v2"
  /\ baseUrl (handleFileUpload (Some serversSpec) ownConfig)
     = VStr "https://api.example.com/v1"
  /\ baseUrl (handleFileUpload (Some serversSpec) ownConfig) <> baseUrl ownConfig.
Proof. repeat split. discriminate. Qed.

(** ** Integer schemas with bounds *)

Lemma integer_by_bounds (env : Env) (spec : value) (fuel : nat) (schema r : value)
  (s : State) :
  resolveSchema schema spec = Ok r ->
  get r "example" = VUndefined ->
  (forall x l, get r "examples" <> VArr (x :: l)) ->
  typeIs r "integer" = true ->
  generateSampleJson env spec (S fuel) schema None s = byBounds r s.
Proof.
  intros Hr Hex Hexs Ht.
  rewrite (generate_step env spec fuel schema r None s Hr Hex Hexs).
  unfold sampleByType.
  rewrite (typeIs_other r "integer" "object" Ht eq_refl).
  rewrite (typeIs_other r "integer" "array" Ht eq_refl).
  rewrite (typeIs_other r "integer" "string" Ht eq_refl), Ht.
  reflexivity.
Qed.

(** With neither bound the value is 1; with a [minimum] the value is the
    larger of it and 1, and [maximum] is not looked at; with a [maximum]
    alone the value is the smaller of it and 100. *)
Lemma byBounds_cases (r : value) (s : State) :
  (get r "minimum" = VUndefined -> get r "maximum" = VUndefined ->
   byBounds r s = Ok (VNum 1, s))
  /\ (forall m, get r "minimum" = VNum m -> byBounds r s = Ok (VNum (Math_max m 1), s))
  /\ (forall m, get r "minimum" = VUndefined -> get r "maximum" = VNum m ->
      byBounds r s = Ok (VNum (Math_min m 100), s)).
Proof.
  unfold byBounds. repeat split.
  - intros -> ->. reflexivity.
  - intros m ->. reflexivity.
  - intros m -> ->. reflexivity.
Qed.

(** Where the [minimum] branch does stay within the bounds: when the
    maximum is at least 1. *)
Lemma minimum_branch_within (lo hi : Q) :
  (lo <= hi)%Q -> (1 <= hi)%Q ->
  (lo <= Math_max lo 1)%Q /\ (Math_max lo 1 <= hi)%Q.
Proof.
  intros Hb H1. unfold Math_max. destruct (Qle_bool lo 1) eqn:E.
  - apply Qle_bool_iff in E. split; assumption.
  - split; [apply Qle_refl | exact Hb].
Qed.

(** C6, where the code departs from it: with minimum -5 and maximum 0 the
    synthesized integer is 1, above the declared maximum. *)
Theorem integer_minimum_ignores_maximum :
  get boundedIntegerSchema "minimum" = VNum (-5)
  /\ get boundedIntegerSchema "maximum" = VNum 0
  /\ generateSampleJson env2025 cyclicSpec 1 boundedIntegerSchema None state0
     = Ok (VNum 1, state0)
  /\ ~ (1 <= 0)%Q.
Proof. repeat split. intro H. unfold Qle in H. cbn in H. lia. Qed.

(** ** Schemas that refer to themselves *)

Lemma sampleProperties_never (gen : value -> option string -> M value)
  (key : string) (prop : value) (es : list (string * value)) :
  In (key, prop) es ->
  (forall s res, gen prop (Some key) s <> Ok res) ->
  forall obj s res, sampleProperties gen es obj s <> Ok res.
Proof.
  intros Hin Hnever. induction es as [|[k p] es IH]; [destruct Hin|].
  intros obj s res. cbn [sampleProperties]. unfold bind.
  destruct (gen p (Some k) s) as [[v s']| | |] eqn:E; cbn [bindR]; try discriminate.
  destruct Hin as [Hhead|Htail].
  - injection Hhead as -> ->. exfalso. exact (Hnever s (v, s') E).
  - exact (IH Htail (setProp obj k v) s' res).
Qed.

(** Whatever the other properties do, a schema that resolves to an object
    schema one of whose properties is that same schema again never yields a
    value. *)
Lemma self_reference_never_returns (env : Env) (spec schema r : value)
  (key : string) :
  resolveSchema schema spec = Ok r ->
  get r "example" = VUndefined ->
  (forall x l, get r "examples" <> VArr (x :: l)) ->
  typeIs r "object" = true ->
  truthy (get r "properties") = true ->
  In (key, schema) (entries (get r "properties")) ->
  forall fuel name s res,
    generateSampleJson env spec fuel schema name s <> Ok res.
Proof.
  intros Hr Hex Hexs Ht Hp Hin fuel.
  induction fuel as [|fuel IH]; intros name s res.
  - discriminate.
  - rewrite (generate_step env spec fuel schema r name s Hr Hex Hexs).
    unfold sampleByType. rewrite Ht, Hp.
    apply (sampleProperties_never _ key schema); [exact Hin|].
    intros s' res'. apply IH.
Qed.

Lemma sampleProperties_out_of_fuel (gen : value -> option string -> M value)
  (before : list (string * value)) (key : string) (next : value)
  (after : list (string * value)) :
  (forall k p, In (k, p) before ->
     forall s, (exists res, gen p (Some k) s = Ok res) \/ gen p (Some k) s = OutOfFuel) ->
  (forall s, gen next (Some key) s = OutOfFuel) ->
  forall obj s,
    sampleProperties gen (before ++ (key, next) :: after) obj s = OutOfFuel.
Proof.
  intros Hbefore Hnext. induction before as [|[k p] before IH]; intros obj s.
  - cbn [app sampleProperties]. unfold bind. now rewrite Hnext.
  - cbn [app sampleProperties]. unfold bind.
    destruct (Hbefore k p (or_introl eq_refl) s) as [[[v t] ->]| ->]; [|reflexivity].
    cbn [bindR]. apply IH. intros k' p' Hin. apply Hbefore. now right.
Qed.

(** C1 (as the code has it). No set of visited targets is kept. Take any
    reference cycle, direct or mutual: schemas each of which resolves to an
    object schema, without example or examples, that has a property whose
    schema is again on the cycle, the properties listed before that one
    synthesizing without an error. Synthesis from a schema on the cycle
    exceeds every bound on the call depth; no field is given null. *)
Theorem reference_cycle_exceeds_every_depth (env : Env) (spec : value)
  (onCycle : value -> Prop) :
  (forall a, onCycle a ->
     exists r before key next after,
       resolveSchema a spec = Ok r
       /\ get r "example" = VUndefined
       /\ (forall x l, get r "examples" <> VArr (x :: l))
       /\ typeIs r "object" = true
       /\ truthy (get r "properties") = true
       /\ entries (get r "properties") = (before ++ (key, next) :: after)%list
       /\ onCycle next
       /\ (forall k p, In (k, p) before -> noError (generateSampleJson env spec) k p)) ->
  forall a, onCycle a ->
  forall fuel name s, generateSampleJson env spec fuel a name s = OutOfFuel.
Proof.
  intros Hcycle a Ha fuel. revert a Ha.
  induction fuel as [|fuel IH]; intros a Ha name s; [reflexivity|].
  destruct (Hcycle a Ha)
    as (r & before & key & next & after & Hr & Hex & Hexs & Ht & Hp & He & Hn & Hb).
  rewrite (generate_step env spec fuel a r name s Hr Hex Hexs).
  unfold sampleByType. rewrite Ht, Hp, He.
  apply sampleProperties_out_of_fuel.
  - intros k p Hin s'. exact (Hb k p Hin fuel s').
  - intros s'. exact (IH next Hn (Some key) s').
Qed.

Lemma reference_cycle_exceeds_every_depth_witness :
  (forall fuel name s,
     generateSampleJson env2025 cyclicSpec fuel (refTo "#/components/schemas/Node")
       name s = OutOfFuel)
  /\ (forall fuel name s,
        generateSampleJson env2025 mutualSpec fuel
          (refTo "#/components/schemas/Order") name s = OutOfFuel).
Proof.
  split.
  - apply (reference_cycle_exceeds_every_depth env2025 cyclicSpec
             (fun a => a = refTo "#/components/schemas/Node")); [|reflexivity].
    intros a ->.
    exists nodeSchema, [("value", obj1 "type" (VStr "string"))], "next",
      (refTo "#/components/schemas/Node"), [].
    repeat split; try reflexivity.
    + intros x l H. discriminate H.
    + intros k p [H|[]]. injection H as <- <-. intros fuel s.
      destruct fuel; [right; reflexivity | left; eexists; reflexivity].
  - apply (reference_cycle_exceeds_every_depth env2025 mutualSpec
             (fun a => a = refTo "#/components/schemas/Order"
                       \/ a = refTo "#/components/schemas/Customer"));
      [|left; reflexivity].
    intros a [->| ->].
    + exists (walk mutualSpec ["components"; "schemas"; "Order"]), [], "customer",
        (refTo "#/components/schemas/Customer"), [].
      repeat split; try reflexivity.
      * intros x l H. discriminate H.
      * right. reflexivity.
      * intros k p [].
    + exists (walk mutualSpec ["components"; "schemas"; "Customer"]),
        [("name", obj1 "type" (VStr "string"))], "lastOrder",
        (refTo "#/components/schemas/Order"), [].
      repeat split; try reflexivity.
      * intros x l H. discriminate H.
      * left. reflexivity.
      * intros k p [H|[]]. injection H as <- <-. intros fuel s.
        destruct fuel; [right; reflexivity | left; eexists; reflexivity].
Defined.

Lemma cyclic_out_of_fuel (env : Env) (fuel : nat) (name : option string) (s : State) :
  generateSampleJson env cyclicSpec fuel (refTo "#/components/schemas/Node") name s
    = OutOfFuel.
Proof.
  revert name s. induction fuel as [|fuel IH]; intros name s; [reflexivity|].
  rewrite (generate_step env cyclicSpec fuel (refTo "#/components/schemas/Node")
             nodeSchema name s eq_refl eq_refl) by (intros x l H; discriminate H).
  change (bind (generateSampleJson env cyclicSpec fuel (obj1 "type" (VStr "string"))
                  (Some "value"))
            (fun v => bind (generateSampleJson env cyclicSpec fuel
                              (refTo "#/components/schemas/Node") (Some "next"))
                        (fun w => ret (VObj (setProp (setProp [] "value" v) "next" w))))
            s = OutOfFuel).
  unfold bind. destruct fuel as [|fuel']; [reflexivity|].
  change (generateSampleJson env cyclicSpec (S fuel') (obj1 "type" (VStr "string"))
            (Some "value") s) with (@Ok (value * State) (VStr "sample", s)).
  cbn [bindR]. now rewrite IH.
Qed.

(** C1, refuted as stated: for the schema [Node], whose property [next]
    refers to [Node], no call depth suffices for a request body to come
    out. *)
Lemma self_reference_counterexample :
  In ("next", refTo "#/components/schemas/Node") (entries (get nodeSchema "properties"))
  /\ resolveSchema (refTo "#/components/schemas/Node") cyclicSpec = Ok nodeSchema
  /\ ~ (exists fuel drawn res,
          generateRequestBody env2025 cyclicSpec fuel
            (jsonBody (refTo "#/components/schemas/Node")) drawn = Ok res).
Proof.
  split; [right; left; reflexivity|]. split; [reflexivity|].
  intros (fuel & drawn & res & H). unfold generateRequestBody in H.
  change (bindR (generateSampleJson env2025 cyclicSpec fuel
                   (refTo "#/components/schemas/Node") None
                   {| idCounter := 1; draws := drawn |})
            (fun '(sampleData, s) => Ok (JSON_stringify sampleData, draws s)) = Ok res)
    in H.
  rewrite cyclic_out_of_fuel in H. discriminate H.
Qed.

(** ** Determinism *)

































(** ** One sampler for each method key *)

Lemma pathItemOperations_keys (path : string) (es : list (string * value)) :
  forallb (fun methodEntry =>
             implb (includedIn (fst methodEntry) httpMethods)
                   (negb (isNullish (snd methodEntry)))) es = true ->
  exists ops,
    pathItemOperations path es = Ok ops
    /\ map (fun op => (op_path op, op_method op)) ops =
       flat_map (fun methodEntry =>
                   if includedIn (fst methodEntry) httpMethods
                   then [(path, toUpperCase (fst methodEntry))]
                   else []) es.
Proof.
  induction es as [|[method operation] es IH]; intro Hwf.
  - exists []. split; reflexivity.
  - cbn [forallb fst snd] in Hwf. apply andb_true_iff in Hwf as [Hop Hrest].
    destruct (IH Hrest) as (ops & Hops & Hmap).
    cbn [pathItemOperations flat_map fst].
    destruct (includedIn method httpMethods) eqn:Hm.
    + cbn [implb] in Hop. unfold getProp.
      apply negb_true_iff in Hop. rewrite Hop. cbn [bindR]. rewrite Hops.
      cbn [bindR]. eexists. split; [reflexivity|].
      cbn [map op_path op_method app]. now rewrite Hmap.
    + exists ops. split; [exact Hops | exact Hmap].
Qed.










(** ** The port of the samplers *)



(** ** Request bodies *)














Lemma includes_char (c d : ascii) (s : string) :
  includes (str1 c) (String d s) = Ascii.eqb c d || includes (str1 c) s.
Proof.
  cbn [includes str1 starts_with]. destruct (Ascii.eqb c d); [|reflexivity].
  destruct s; reflexivity.
Qed.

(** No double quote is left in the escaped text. *)
Lemma escapeQuotes_clean (s : string) :
  includes (str1 dquote) (escapeQuotes s) = false.
Proof.
  induction s as [|c s IH]; [reflexivity|].
  cbn [escapeQuotes]. destruct (Ascii.eqb c dquote) eqn:E.
  - cbn [append]. rewrite !includes_char. rewrite IH. reflexivity.
  - rewrite includes_char, IH. rewrite Ascii.eqb_sym, E. reflexivity.
Qed.





(** The body that the POST sampler of [usersSpec] carries. *)
Example post_users_body :
  exists smp rest,
    httpSampler env2025 usersSpec sampleParts 3 postUsers 0 = Ok (smp, 0%nat)
    /\ bodyData smp = Some (String "{" (String (ascii_of_nat 10)
                               ("  &quot;id&quot;: 1," ++ rest))).
Proof. eexists. eexists. split; reflexivity. Qed.

(** * Further properties of the component *)

(** ** Paths and placeholders *)

Lemma includes_tail (c d : ascii) (s : string) :
  includes (str1 c) (String d s) = false ->
  Ascii.eqb c d = false /\ includes (str1 c) s = false.
Proof. rewrite includes_char. apply orb_false_iff. Qed.

Lemma span_open_all (s : string) :
  includes "}" s = false -> span_open s = (s, EmptyString).
Proof.
  induction s as [|c s IH]; intro H; [reflexivity|].
  apply (includes_tail "}" c s) in H as [Hc Hs].
  cbn [span_open]. rewrite Ascii.eqb_sym, Hc, (IH Hs). reflexivity.
Qed.

Lemma span_open_run (name rest : string) :
  includes "}" name = false ->
  span_open (name ++ String "}" rest) = (name, String "}" rest).
Proof.
  induction name as [|c name IH]; intro H; [reflexivity|].
  apply (includes_tail "}" c name) in H as [Hc Hs].
  cbn [append span_open]. rewrite Ascii.eqb_sym, Hc, (IH Hs). reflexivity.
Qed.

Lemma match_placeholder_other (c : ascii) (s : string) :
  Ascii.eqb c "{" = false -> match_placeholder (String c s) = None.
Proof.
  intro H. unfold match_placeholder.
  destruct c as [[] [] [] [] [] [] [] []]; try reflexivity. discriminate H.
Qed.

Lemma match_placeholder_unclosed (s : string) :
  includes "}" s = false -> match_placeholder s = None.
Proof.
  intro H. destruct s as [|c s]; [reflexivity|].
  destruct (Ascii.eqb c "{") eqn:E.
  - apply Ascii.eqb_eq in E. subst c.
    apply (includes_tail "}" "{" s) in H as [_ Hs].
    unfold match_placeholder. rewrite (span_open_all s Hs).
    destruct s; reflexivity.
  - exact (match_placeholder_other c s E).
Qed.

Lemma rewrite_from_unclosed (n : nat) (s : string) :
  includes "}" s = false -> rewrite_from n s = s.
Proof.
  revert s. induction n as [|n IH]; intros s H; [reflexivity|].
  cbn [rewrite_from]. rewrite (match_placeholder_unclosed s H).
  destruct s as [|c s]; [reflexivity|].
  apply (includes_tail "}" c s) in H as [_ Hs]. now rewrite (IH s Hs).
Qed.

Lemma rewrite_from_unopened (n : nat) (s : string) :
  includes "{" s = false -> rewrite_from n s = s.
Proof.
  revert s. induction n as [|n IH]; intros s H; [reflexivity|].
  cbn [rewrite_from]. destruct s as [|c s]; [reflexivity|].
  apply (includes_tail "{" c s) in H as [Hc Hs].
  rewrite (match_placeholder_other c s) by (now rewrite Ascii.eqb_sym).
  now rewrite (IH s Hs).
Qed.

(** A path with no opening brace, or with no closing brace, has no
    placeholder and is left as it is. *)
Theorem path_without_braces_unchanged (path : string) :
  includes "{" path = false \/ includes "}" path = false ->
  pathWithoutParams path = path.
Proof.
  unfold pathWithoutParams. intros [H|H].
  - exact (rewrite_from_unopened _ path H).
  - exact (rewrite_from_unclosed _ path H).
Qed.

Lemma path_without_braces_unchanged_witness :
  pathWithoutParams "/users/{id" = "/users/{id"
  /\ pathWithoutParams "/health" = "/health".
Proof.
  split.
  - apply (path_without_braces_unchanged "/users/{id"). right. reflexivity.
  - apply (path_without_braces_unchanged "/health"). left. reflexivity.
Defined.

Lemma rewrite_from_placeholder (pre name post : string) (n : nat) :
  includes "{" pre = false ->
  includes "}" name = false -> name <> EmptyString ->
  (String.length (pre ++ String "{" (name ++ String "}" post)) <= n)%nat ->
  rewrite_from n (pre ++ String "{" (name ++ String "}" post))
    = pre ++ String "$" (String "{" (name ++ String "}" (pathWithoutParams post))).
Proof.
  intros Hpre Hname Hne. revert n. induction pre as [|c pre IH]; intros n Hn.
  - cbn [append] in *. destruct n as [|n]; [cbn in Hn; lia|].
    cbn [rewrite_from]. unfold match_placeholder.
    rewrite (span_open_run name post Hname).
    destruct name as [|x name]; [congruence|].
    cbn [append]. do 3 f_equal.
    assert (Hlen : (String.length post <= n)%nat).
    { cbn [String.length] in Hn. rewrite length_append in Hn.
      cbn [String.length] in Hn. lia. }
    clear -Hlen. induction name as [|y name IHn]; cbn [append].
    + f_equal. unfold pathWithoutParams. now apply rewrite_from_enough.
    + now f_equal.
  - apply (includes_tail "{" c pre) in Hpre as [Hc Hp].
    cbn [append] in *. destruct n as [|n]; [cbn in Hn; lia|].
    cbn [rewrite_from].
    rewrite (match_placeholder_other c _) by (now rewrite Ascii.eqb_sym).
    f_equal. apply (IH Hp). cbn [String.length] in Hn. lia.
Qed.

(** The first placeholder of a path is rewritten where it stands: the text
    before it is kept, the name (any non-empty text without a closing brace)
    gets the dollar sign, and the rewrite goes on with the text after it. *)
Theorem path_placeholder_rewritten (pre name post : string) :
  includes "{" pre = false ->
  includes "}" name = false -> name <> EmptyString ->
  pathWithoutParams (pre ++ "{" ++ name ++ "}" ++ post)
    = pre ++ "${" ++ name ++ "}" ++ pathWithoutParams post.
Proof.
  intros Hpre Hname Hne.
  change (pre ++ "{" ++ name ++ "}" ++ post)
    with (pre ++ String "{" (name ++ String "}" post)).
  change (pre ++ "${" ++ name ++ "}" ++ pathWithoutParams post)
    with (pre ++ String "$" (String "{" (name ++ String "}" (pathWithoutParams post)))).
  unfold pathWithoutParams at 1.
  now apply rewrite_from_placeholder.
Qed.

Lemma path_placeholder_rewritten_witness :
  pathWithoutParams "/users/{user-id}/posts/{postId}"
    = "/users/${user-id}" ++ pathWithoutParams "/posts/{postId}".
Proof.
  apply (path_placeholder_rewritten "/users/" "user-id" "/posts/{postId}");
    [reflexivity | reflexivity | discriminate].
Defined.

(** ** Escaping of the body text *)

Lemma escapeQuotes_plain (s : string) :
  includes (str1 dquote) s = false -> escapeQuotes s = s.
Proof.
  induction s as [|c s IH]; intro H; [reflexivity|].
  apply (includes_tail dquote c s) in H as [Hc Hs].
  cbn [escapeQuotes]. rewrite Ascii.eqb_sym, Hc, (IH Hs). reflexivity.
Qed.

Lemma escapeQuotes_escaped (raw : string) : QuotesEscaped raw (escapeQuotes raw).
Proof.
  induction raw as [|c raw IH]; [constructor|].
  cbn [escapeQuotes]. destruct (Ascii.eqb c dquote) eqn:E.
  - apply Ascii.eqb_eq in E. subst c. now constructor.
  - apply Ascii.eqb_neq in E. now constructor.
Qed.

Lemma escapeQuotes_after_plain (before rest : string) :
  includes (str1 dquote) before = false ->
  escapeQuotes (before ++ rest) = before ++ escapeQuotes rest.
Proof.
  induction before as [|c before IH]; intro H; [reflexivity|].
  apply (includes_tail dquote c before) in H as [Hc Hs].
  cbn [append escapeQuotes]. rewrite Ascii.eqb_sym, Hc, (IH Hs). reflexivity.
Qed.

(** Only the double quote is escaped. A text without one is unchanged,
    whatever else it holds, and escaping twice is escaping once. In a text
    with a double quote, what precedes the first one is kept, that quote is
    written [&quot;], and what follows it is escaped in the same way; so
    every double quote is replaced and every other character is kept, in
    order. *)
Theorem escapeQuotes_only_quotes (text : string) :
  (includes (str1 dquote) text = false -> escapeQuotes text = text)
  /\ escapeQuotes (escapeQuotes text) = escapeQuotes text
  /\ (forall before after,
        text = before ++ String dquote after ->
        includes (str1 dquote) before = false ->
        escapeQuotes text = before ++ "&quot;" ++ escapeQuotes after)
  /\ QuotesEscaped text (escapeQuotes text).
Proof.
  split; [apply escapeQuotes_plain|].
  split; [apply escapeQuotes_plain, escapeQuotes_clean|].
  split; [|apply escapeQuotes_escaped].
  intros before after -> H. rewrite (escapeQuotes_after_plain before _ H).
  cbn [escapeQuotes]. rewrite Ascii.eqb_refl. reflexivity.
Qed.

Lemma escapeQuotes_only_quotes_witness :
  escapeQuotes ("{<a>: " ++ String dquote ("x&y" ++ String dquote "}"))
    = "{<a>: " ++ "&quot;" ++ escapeQuotes ("x&y" ++ String dquote "}").
Proof.
  apply (proj1 (proj2 (proj2 (escapeQuotes_only_quotes
                                ("{<a>: " ++ String dquote ("x&y" ++ String dquote "}")))))
           "{<a>: " ("x&y" ++ String dquote "}"));
    reflexivity.
Defined.

(** ** Pointers *)

Lemma split_on_plain (sep : ascii) (x : string) :
  includes (str1 sep) x = false -> split_on sep x = [x].
Proof.
  induction x as [|c x IH]; intro H; [reflexivity|].
  apply (includes_tail sep c x) in H as [Hc Hx].
  cbn [split_on]. rewrite Ascii.eqb_sym, Hc, (IH Hx). reflexivity.
Qed.

Lemma split_on_segment (sep : ascii) (x rest : string) :
  includes (str1 sep) x = false ->
  split_on sep (x ++ String sep rest) = x :: split_on sep rest.
Proof.
  induction x as [|c x IH]; intro H.
  - cbn [append split_on]. now rewrite Ascii.eqb_refl.
  - apply (includes_tail sep c x) in H as [Hc Hx].
    cbn [append split_on]. rewrite Ascii.eqb_sym, Hc, (IH Hx). reflexivity.
Qed.

Lemma split_join (sep : ascii) (segments : list string) :
  segments <> [] ->
  Forall (fun x => includes (str1 sep) x = false) segments ->
  split_on sep (joinWith (str1 sep) segments) = segments.
Proof.
  intros Hne Hall. induction Hall as [|x rest Hx Hrest IH]; [congruence|].
  destruct rest as [|y rest].
  - cbn [joinWith]. exact (split_on_plain sep x Hx).
  - change (joinWith (str1 sep) (x :: y :: rest))
      with (x ++ String sep (joinWith (str1 sep) (y :: rest))).
    rewrite (split_on_segment sep x _ Hx), IH by discriminate. reflexivity.
Qed.

(** A marker whose pointer is [#/] followed by key names joined with
    slashes (no key containing a slash) stands for the node reached from the
    document root by looking the keys up one after the other, when that
    node is truthy, and for the empty schema otherwise. *)
Theorem pointer_resolves_by_lookup (schema spec : value) (segments : list string) :
  get schema "$ref" = VStr ("#/" ++ joinWith "/" segments) ->
  segments <> [] ->
  Forall (fun key => includes "/" key = false) segments ->
  resolveSchema schema spec =
    Ok (if truthy (walk spec segments) then walk spec segments else VObj []).
Proof.
  intros Href Hne Hall. unfold resolveSchema, getProp.
  rewrite (get_not_nullish schema "$ref") by (rewrite Href; discriminate).
  cbn [bindR]. rewrite Href.
  change (truthy (VStr ("#/" ++ joinWith "/" segments))) with true.
  cbv iota.
  change (replace_first "#/" EmptyString ("#/" ++ joinWith "/" segments))
    with (joinWith "/" segments).
  pose proof (split_join "/" segments Hne Hall) as Hsplit.
  unfold str1 in Hsplit. rewrite Hsplit. reflexivity.
Qed.

Lemma pointer_resolves_by_lookup_witness :
  resolveSchema (refTo "#/components/schemas/Node") cyclicSpec = Ok nodeSchema.
Proof.
  apply (pointer_resolves_by_lookup (refTo "#/components/schemas/Node") cyclicSpec
           ["components"; "schemas"; "Node"]).
  - reflexivity.
  - discriminate.
  - repeat constructor.
Defined.

(** A reference is followed once only: when the pointer leads to another
    reference marker, that marker is taken as the schema, and having no
    type it synthesizes to null, whatever its own pointer leads to. *)
Theorem reference_followed_once (env : Env) (spec schema : value)
  (pointer other : string) (fuel : nat) (name : option string) (s : State) :
  get schema "$ref" = VStr pointer ->
  pointer <> EmptyString ->
  walk spec (split_on "/" (replace_first "#/" EmptyString pointer)) = refTo other ->
  resolveSchema schema spec = Ok (refTo other)
  /\ generateSampleJson env spec (S fuel) schema name s = Ok (VNull, s).
Proof.
  intros Href Hne Hwalk.
  assert (Hres : resolveSchema schema spec = Ok (refTo other)).
  { unfold resolveSchema, getProp.
    rewrite (get_not_nullish schema "$ref") by (rewrite Href; discriminate).
    cbn [bindR]. rewrite Href, (truthy_string pointer Hne), Hwalk. reflexivity. }
  split; [exact Hres|].
  rewrite (generate_step env spec fuel schema (refTo other) name s Hres eq_refl).
  - reflexivity.
  - intros x l H. discriminate H.
Qed.

Lemma reference_followed_once_witness :
  resolveSchema (refTo "#/components/schemas/Alias") aliasSpec
    = Ok (refTo "#/components/schemas/User")
  /\ generateSampleJson env2025 aliasSpec 1 (refTo "#/components/schemas/Alias")
       (Some "owner") state0 = Ok (VNull, state0).
Proof.
  apply (reference_followed_once env2025 aliasSpec
           (refTo "#/components/schemas/Alias") "#/components/schemas/Alias"
           "#/components/schemas/User" 0 (Some "owner") state0);
    [reflexivity | discriminate | reflexivity].
Defined.

(** ** The parts of the base URL *)

Lemma split_on_head (sep : ascii) (s : string) :
  includes (str1 sep) (hd EmptyString (split_on sep s)) = false
  /\ starts_with (hd EmptyString (split_on sep s)) s = true.
Proof.
  induction s as [|c s [IHi IHp]]; [split; reflexivity|].
  cbn [split_on]. destruct (Ascii.eqb c sep) eqn:E; [split; reflexivity|].
  destruct (split_on sep s) as [|w ws]; cbn [hd] in *.
  - split; [|cbn; now rewrite Ascii.eqb_refl].
    change (str1 c) with (String c EmptyString).
    rewrite (includes_char sep c EmptyString), Ascii.eqb_sym, E. reflexivity.
  - split.
    + rewrite includes_char, Ascii.eqb_sym, E. exact IHi.
    + cbn [starts_with]. rewrite Ascii.eqb_refl. exact IHp.
Qed.

Lemma urlParts_string (parseURL : string -> option URL) (config : JMeterConfig)
  (base : string) :
  baseUrl config = VStr base ->
  exists parts,
    urlParts parseURL config = Ok parts
    /\ (parseURL base = None ->
        parts = {| protocol := "https";
                   domain := hd EmptyString (split_on "/" (stripScheme base));
                   port := EmptyString;
                   path := EmptyString |}).
Proof.
  intro Hb. unfold urlParts. rewrite Hb. cbn [toString].
  destruct (parseURL base) as [url|].
  - eexists. split; [reflexivity | discriminate].
  - eexists. split; reflexivity.
Qed.

Lemma append_empty (s : string) : s ++ EmptyString = s.
Proof. induction s as [|c s IH]; [reflexivity|]. cbn [append]. now rewrite IH. Qed.

(** The text before the first slash. *)
Lemma split_on_first (host tail : string) :
  includes "/" host = false ->
  tail = EmptyString \/ (exists rest, tail = "/" ++ rest) ->
  hd EmptyString (split_on "/" (host ++ tail)) = host.
Proof.
  intros Hhost [-> |(rest & ->)].
  - rewrite append_empty, (split_on_plain "/" host Hhost). reflexivity.
  - change (host ++ "/" ++ rest) with (host ++ String "/" rest).
    rewrite (split_on_segment "/" host rest Hhost). reflexivity.
Qed.

(** With a base URL that is a string the parts are always obtained. When
    the URL does not parse, the protocol is https, port and path are empty,
    and the domain is the beginning of the base URL (its http or https
    scheme removed) up to the first slash, so it contains no slash: for a
    base URL made of a scheme ([http://], [https://] or none), a host
    without a slash, and then nothing or a slash and more, the domain is
    that host. *)
Theorem urlParts_fallback (parseURL : string -> option URL) (config : JMeterConfig)
  (base : string) :
  baseUrl config = VStr base ->
  (exists parts,
     urlParts parseURL config = Ok parts
     /\ (parseURL base = None ->
         protocol parts = "https"
         /\ port parts = EmptyString
         /\ path parts = EmptyString
         /\ includes "/" (domain parts) = false
         /\ starts_with (domain parts) (stripScheme base) = true))
  /\ (parseURL base = None ->
      forall scheme host tail,
        base = scheme ++ host ++ tail ->
        scheme = "http://" \/ scheme = "https://"
        \/ (scheme = EmptyString
            /\ starts_with "http://" base = false
            /\ starts_with "https://" base = false) ->
        includes "/" host = false ->
        tail = EmptyString \/ (exists rest, tail = "/" ++ rest) ->
        urlParts parseURL config
          = Ok {| protocol := "https"; domain := host;
                  port := EmptyString; path := EmptyString |}).
Proof.
  intro Hb. destruct (urlParts_string parseURL config base Hb) as (parts & Hparts & Hnone).
  split.
  - exists parts. split; [exact Hparts|]. intro Hp. rewrite (Hnone Hp).
    cbn [protocol port path domain].
    destruct (split_on_head "/" (stripScheme base)) as [Hi Hs].
    repeat split; assumption.
  - intros Hp scheme host tail Hbase Hscheme Hhost Htail.
    rewrite Hparts, (Hnone Hp). do 2 f_equal.
    assert (Hstrip : stripScheme base = host ++ tail).
    { destruct Hscheme as [-> |[-> |(-> & Hh & Hhs)]]; subst base.
      - reflexivity.
      - reflexivity.
      - unfold stripScheme. cbn [append] in *. now rewrite Hh, Hhs. }
    rewrite Hstrip. now apply split_on_first.
Qed.

Lemma urlParts_fallback_witness :
  urlParts sampleParseURL (withBaseUrl sampleConfig (VStr "api.example.com/v1/users"))
    = Ok {| protocol := "https"; domain := "api.example.com";
            port := EmptyString; path := EmptyString |}
  /\ urlParts sampleParseURL (withBaseUrl sampleConfig (VStr "https://api example.com/v1"))
    = Ok {| protocol := "https"; domain := "api example.com";
            port := EmptyString; path := EmptyString |}.
Proof.
  split.
  - apply (proj2 (urlParts_fallback sampleParseURL
                    (withBaseUrl sampleConfig (VStr "api.example.com/v1/users"))
                    "api.example.com/v1/users" eq_refl)
             eq_refl EmptyString "api.example.com" "/v1/users" eq_refl).
    + right. right. repeat split; reflexivity.
    + reflexivity.
    + right. exists "v1/users". reflexivity.
  - apply (proj2 (urlParts_fallback sampleParseURL
                    (withBaseUrl sampleConfig (VStr "https://api example.com/v1"))
                    "https://api example.com/v1" eq_refl)
             eq_refl "https://" "api example.com" "/v1" eq_refl).
    + right. left. reflexivity.
    + reflexivity.
    + right. exists "v1". reflexivity.
Defined.

(** ** Extraction of the operations *)

Lemma pathItemOperations_throws (path : string) (es : list (string * value)) :
  forallb (fun methodEntry =>
             implb (includedIn (fst methodEntry) httpMethods)
                   (negb (isNullish (snd methodEntry)))) es = false ->
  pathItemOperations path es = TypeError.
Proof.
  induction es as [|[method operation] es IH]; intro H; [discriminate H|].
  cbn [forallb fst snd] in H. cbn [pathItemOperations].
  destruct (includedIn method httpMethods) eqn:Em; cbn [implb] in H.
  - unfold getProp. destruct (isNullish operation); [reflexivity|].
    cbn [negb andb] in H. cbn [bindR]. now rewrite (IH H).
  - cbn [andb] in H. exact (IH H).
Qed.

Lemma pathsOperations_throws (es : list (string * value)) :
  forallb (fun pathEntry =>
      negb (isNullish (snd pathEntry))
      && forallb (fun methodEntry =>
             implb (includedIn (fst methodEntry) httpMethods)
                   (negb (isNullish (snd methodEntry))))
           (entries (snd pathEntry))) es = false ->
  pathsOperations es = TypeError.
Proof.
  induction es as [|[path pathItem] es IH]; intro H; [discriminate H|].
  cbn [forallb fst snd] in H. cbn [pathsOperations]. unfold Object_entries.
  destruct (isNullish pathItem); [reflexivity|]. cbn [negb andb bindR] in *.
  destruct (forallb _ (entries pathItem)) eqn:Ei.
  - cbn [andb] in H.
    destruct (pathItemOperations_keys path (entries pathItem) Ei) as (ops & -> & _).
    cbn [bindR]. now rewrite (IH H).
  - now rewrite (pathItemOperations_throws path _ Ei).
Qed.

(** The extraction throws a [TypeError] whenever a path item is null or an
    operation under one of the seven method keys is null. *)
Theorem operations_null_throws (spec : value) :
  wellFormedPaths spec = false -> operations spec = TypeError.
Proof. intro H. exact (pathsOperations_throws _ H). Qed.

Lemma operations_null_throws_witness :
  operations nullOperationSpec = TypeError.
Proof. apply (operations_null_throws nullOperationSpec). reflexivity. Defined.

(** ** Samplers without a body *)

Lemma generateRequestBody_none (env : Env) (spec : value) (fuel : nat)
  (requestBody : value) (drawn : nat) :
  declaresJsonSchema requestBody = false ->
  generateRequestBody env spec fuel requestBody drawn = Ok (VStr EmptyString, drawn).
Proof.
  unfold declaresJsonSchema, generateRequestBody. intro H.
  destruct (truthy (get requestBody "content")); [|reflexivity].
  now rewrite H.
Qed.

(** Operations that need no synthesis (a method other than POST, PUT and
    PATCH, or no JSON schema declared) always get their samplers, one each
    and without a body, whatever the bound on the call depth, and no random
    number is drawn. *)
Theorem samplers_without_schema (env : Env) (spec : value) (parts : UrlParts)
  (fuel : nat) (ops : list Operation) (drawn : nat) :
  (forall op, In op ops ->
     needsBody (op_method op) = false
     \/ declaresJsonSchema (op_requestBody op) = false) ->
  exists samplers,
    httpSamplers env spec parts fuel ops drawn = Ok (samplers, drawn)
    /\ List.length samplers = List.length ops
    /\ Forall (fun smp => bodyData smp = None) samplers.
Proof.
  induction ops as [|op ops IH]; intro H.
  - exists []. repeat split. constructor.
  - destruct IH as (rest & Hrest & Hlen & Hnone).
    { intros o Ho. apply H. now right. }
    assert (Hbody : (if needsBody (op_method op)
                     then generateRequestBody env spec fuel (op_requestBody op) drawn
                     else Ok (VStr EmptyString, drawn))
                    = Ok (VStr EmptyString, drawn)).
    { destruct (H op (or_introl eq_refl)) as [Hn|Hd].
      - now rewrite Hn.
      - rewrite (generateRequestBody_none env spec fuel _ drawn Hd).
        now destruct (needsBody (op_method op)). }
    cbn [httpSamplers]. unfold httpSampler. rewrite Hbody. cbn [bindR].
    rewrite Hrest. cbn [bindR]. eexists. split; [reflexivity|]. split.
    + cbn [List.length]. now rewrite Hlen.
    + constructor; [reflexivity | exact Hnone].
Qed.

Lemma samplers_without_schema_witness :
  exists samplers,
    httpSamplers env2025 usersSpec sampleParts 0
      [ {| op_path := "/users"; op_method := "GET"; op_operationId := VUndefined;
           op_summary := VStr "List users"; op_parameters := VUndefined;
           op_requestBody := VUndefined; op_tags := VUndefined |} ] 5
      = Ok (samplers, 5%nat)
    /\ List.length samplers = 1%nat
    /\ Forall (fun smp => bodyData smp = None) samplers.
Proof.
  apply (samplers_without_schema env2025 usersSpec sampleParts 0
           [ {| op_path := "/users"; op_method := "GET"; op_operationId := VUndefined;
                op_summary := VStr "List users"; op_parameters := VUndefined;
                op_requestBody := VUndefined; op_tags := VUndefined |} ] 5).
  intros op [<-|[]]. left. reflexivity.
Defined.

(** ** Validation of the document *)

Lemma truthy_typeof (v : value) :
  negb (truthy v) || negb (typeofObject v) = negb (objectOrArray v).
Proof.
  destruct v as [| |[|]|q|t| |]; try reflexivity; cbn [typeofObject objectOrArray negb];
    apply orb_true_r.
Qed.

(** Which documents the checks of the generate handler let through, and
    which error each of the others gets: anything but an object or an array
    is an invalid specification; an object or array with neither a truthy
    [openapi] nor a truthy [swagger] lacks the version; one with a version
    but whose [paths] is not an object or an array has no paths. *)
Theorem validate_outcomes (spec : value) :
  (validate spec = Some InvalidSpecification <-> objectOrArray spec = false)
  /\ (validate spec = Some MissingVersion <->
        objectOrArray spec = true
        /\ truthy (get spec "openapi") = false /\ truthy (get spec "swagger") = false)
  /\ (validate spec = Some NoPaths <->
        objectOrArray spec = true
        /\ (truthy (get spec "openapi") = true \/ truthy (get spec "swagger") = true)
        /\ objectOrArray (get spec "paths") = false)
  /\ (validate spec = None <->
        objectOrArray spec = true
        /\ (truthy (get spec "openapi") = true \/ truthy (get spec "swagger") = true)
        /\ objectOrArray (get spec "paths") = true)
  /\ validate spec <> Some InvalidFormat.
Proof.
  unfold validate. rewrite !truthy_typeof.
  destruct (objectOrArray spec), (truthy (get spec "openapi")),
    (truthy (get spec "swagger")), (objectOrArray (get spec "paths"));
    cbn [negb andb orb]; intuition congruence.
Qed.

(** A document that passes the checks and whose [paths] has no entry
    compiles, with any base URL that is a string, to a plan without
    samplers. *)
Theorem empty_paths_no_samplers (parseJSON parseYAML : string -> option value)
  (parseURL : string -> option URL) (env : Env) (fuel : nat)
  (swaggerContent : string) (config : JMeterConfig) (spec : value) (base : string) :
  trim swaggerContent <> EmptyString ->
  parseSpec parseJSON parseYAML swaggerContent = Some spec ->
  validate spec = None ->
  entries (get spec "paths") = [] ->
  baseUrl config = VStr base ->
  handleGenerateJMeter parseJSON parseYAML parseURL env fuel swaggerContent config
    = Ran (Ok []).
Proof.
  intros Htrim Hparse Hvalid Hpaths Hbase. unfold handleGenerateJMeter.
  destruct (String.eqb (trim swaggerContent) EmptyString) eqn:E;
    [apply String.eqb_eq in E; contradiction|].
  rewrite Hparse, Hvalid. f_equal. unfold generateJMeterXml.
  destruct (urlParts_string parseURL config base Hbase) as (parts & -> & _).
  cbn [bindR]. unfold operations, orElse.
  apply (proj1 (proj1 (proj2 (proj2 (proj2 (validate_outcomes spec)))))) in Hvalid.
  destruct Hvalid as (_ & _ & Hp).
  assert (Ht : truthy (get spec "paths") = true)
    by (destruct (get spec "paths"); try discriminate Hp; reflexivity).
  rewrite Ht, Hpaths. reflexivity.
Qed.

Lemma empty_paths_no_samplers_witness :
  handleGenerateJMeter sampleParseJSON noParse sampleParseURL env2025 0
    (textOf cyclicSpec) sampleConfig = Ran (Ok []).
Proof.
  apply (empty_paths_no_samplers sampleParseJSON noParse sampleParseURL env2025 0
           (textOf cyclicSpec) sampleConfig cyclicSpec "https://api.example.com/v1");
    [discriminate | reflexivity | reflexivity | reflexivity | reflexivity].
Defined.

(** ** The name of the download *)

Lemma anySpace_append (a b : string) : anySpace (a ++ b) = anySpace a || anySpace b.
Proof.
  induction a as [|c a IH]; [reflexivity|].
  cbn [append anySpace]. now rewrite IH, orb_assoc.
Qed.

Lemma underscoreFrom_clean (inRun : bool) (s : string) :
  anySpace (underscoreFrom inRun s) = false.
Proof.
  revert inRun. induction s as [|c s IH]; intro inRun; [reflexivity|].
  cbn [underscoreFrom]. destruct (isSpace c) eqn:E.
  - destruct inRun; [apply IH|]. cbn [anySpace]. now rewrite IH.
  - cbn [anySpace]. now rewrite E, IH.
Qed.

Lemma underscoreFrom_plain (s : string) :
  anySpace s = false -> underscoreFrom false s = s.
Proof.
  induction s as [|c s IH]; intro H; [reflexivity|].
  cbn [anySpace] in H. apply orb_false_iff in H as [Hc Hs].
  cbn [underscoreFrom]. now rewrite Hc, (IH Hs).
Qed.

Lemma underscoreFrom_word (word rest : string) :
  anySpace word = false ->
  underscoreFrom false (word ++ rest) = word ++ underscoreFrom false rest.
Proof.
  induction word as [|c word IH]; intro H; [reflexivity|].
  cbn [anySpace] in H. apply orb_false_iff in H as [Hc Hw].
  cbn [append underscoreFrom]. now rewrite Hc, (IH Hw).
Qed.

Lemma underscoreFrom_run (run rest : string) :
  onlySpace run = true -> startsWithSpace rest = false ->
  underscoreFrom true (run ++ rest) = underscoreFrom false rest.
Proof.
  intros Hrun Hrest. induction run as [|c run IH].
  - cbn [append]. destruct rest as [|d rest]; [reflexivity|].
    cbn [startsWithSpace] in Hrest. cbn [underscoreFrom]. now rewrite Hrest.
  - cbn [onlySpace] in Hrun. apply andb_true_iff in Hrun as [Hc Hr].
    cbn [append underscoreFrom]. rewrite Hc. exact (IH Hr).
Qed.

Lemma append_assoc (a b c : string) : (a ++ b) ++ c = a ++ b ++ c.
Proof. induction a as [|x a IH]; [reflexivity|]. cbn [append]. now rewrite IH. Qed.

(** The file name offered for download contains no white space, and for a
    plan name without white space it is that name followed by [.jmx]. A plan
    name that begins with a word without white space followed by a run of
    one or more white-space characters gives that word, one underscore for
    the whole run, and then the file name of what follows the run. *)
Theorem download_name_no_space (config : JMeterConfig) :
  anySpace (downloadName config) = false
  /\ (anySpace (testPlanName config) = false ->
      downloadName config = testPlanName config ++ ".jmx")
  /\ (forall word run rest config',
        testPlanName config = word ++ run ++ rest ->
        anySpace word = false ->
        run <> EmptyString -> onlySpace run = true ->
        startsWithSpace rest = false ->
        testPlanName config' = rest ->
        downloadName config = word ++ "_" ++ downloadName config').
Proof.
  unfold downloadName, underscoreSpaces. split; [|split].
  - rewrite anySpace_append, underscoreFrom_clean. reflexivity.
  - intro H. now rewrite (underscoreFrom_plain _ H).
  - intros word run rest config' Hname Hword Hne Hrun Hrest ->.
    rewrite Hname, (underscoreFrom_word word _ Hword).
    destruct run as [|c run]; [contradiction|].
    cbn [onlySpace] in Hrun. apply andb_true_iff in Hrun as [Hc Hr].
    cbn [append underscoreFrom]. rewrite Hc.
    rewrite (underscoreFrom_run run rest Hr Hrest).
    rewrite append_assoc. reflexivity.
Qed.

Lemma download_name_no_space_witness :
  downloadName (planNamed ("Load" ++ String " " (String (ascii_of_nat 9) " ") ++ "Test v2"))
    = "Load" ++ "_" ++ downloadName (planNamed "Test v2")
  /\ downloadName (planNamed "Test v2") = "Test" ++ "_" ++ downloadName (planNamed "v2")
  /\ downloadName (planNamed "v2") = "v2.jmx".
Proof.
  split; [|split].
  - apply (proj2 (proj2 (download_name_no_space
                           (planNamed ("Load" ++ String " " (String (ascii_of_nat 9) " ")
                                       ++ "Test v2"))))
             "Load" (String " " (String (ascii_of_nat 9) " ")) "Test v2"
             (planNamed "Test v2"));
      [reflexivity | reflexivity | discriminate | reflexivity | reflexivity | reflexivity].
  - apply (proj2 (proj2 (download_name_no_space (planNamed "Test v2")))
             "Test" " " "v2" (planNamed "v2"));
      [reflexivity | reflexivity | discriminate | reflexivity | reflexivity | reflexivity].
  - apply (proj1 (proj2 (download_name_no_space (planNamed "v2")))). reflexivity.
Defined.

Example download_name_sample :
  downloadName sampleConfig = "API_Performance_Test.jmx".
Proof. reflexivity. Qed.

(** ** Uploads, one after the other *)

(** Uploading the same document twice gives what uploading it once gives,
    and after a document that declares a server (a truthy [servers[0].url]
    or [host]) nothing is left of the uploads before it. *)
Theorem upload_last_wins (first second : option value) (config : JMeterConfig) :
  handleFileUpload second (handleFileUpload second config)
    = handleFileUpload second config
  /\ (forall parsedSpec,
        second = Some parsedSpec ->
        truthy (get (get (get parsedSpec "servers") "0") "url") = true
        \/ truthy (get parsedSpec "host") = true ->
        handleFileUpload second (handleFileUpload first config)
          = handleFileUpload second config).
Proof.
  split.
  - destruct second as [p|]; [|reflexivity]. unfold handleFileUpload.
    destruct (truthy (get (get (get p "servers") "0") "url")); [reflexivity|].
    destruct (truthy (get p "host")); reflexivity.
  - intros p -> H. unfold handleFileUpload at 1 3.
    assert (Hframe : forall b, withBaseUrl (handleFileUpload first config) b
                               = withBaseUrl config b).
    { intro b. destruct first as [q|]; [|reflexivity]. unfold handleFileUpload.
      destruct (truthy (get (get (get q "servers") "0") "url")); [reflexivity|].
      destruct (truthy (get q "host")); reflexivity. }
    destruct (truthy (get (get (get p "servers") "0") "url")); [apply Hframe|].
    destruct H as [H|H]; [discriminate H|]. rewrite H. apply Hframe.
Qed.

(** ** The two revisions *)

Lemma httpSamplers_earlier (env : Env) (spec : value) (parts : UrlParts) (fuel : nat)
  (ops : list Operation) :
  forall drawn samplers drawn',
    httpSamplers env spec parts fuel ops drawn = Ok (samplers, drawn') ->
    map testname samplers = map testname (map Earlier.httpSampler ops)
    /\ map s_method samplers = map s_method (map Earlier.httpSampler ops)
    /\ map s_path samplers
       = map (fun smp => path parts ++ s_path smp) (map Earlier.httpSampler ops).
Proof.
  induction ops as [|op ops IH]; intros drawn samplers drawn' H.
  - injection H as <- _. repeat split.
  - cbn [httpSamplers] in H.
    destruct (httpSampler env spec parts fuel op drawn) as [[smp d1]| | |] eqn:E;
      try discriminate H.
    cbn [bindR] in H.
    destruct (httpSamplers env spec parts fuel ops d1) as [[rest d2]| | |] eqn:E2;
      try discriminate H.
    cbn [bindR] in H. injection H as <- _.
    destruct (IH d1 rest d2 E2) as (Hn & Hm & Hp).
    unfold httpSampler in E.
    destruct (if needsBody (op_method op)
              then generateRequestBody env spec fuel (op_requestBody op) drawn
              else Ok (VStr EmptyString, drawn)) as [[rb d]| | |];
      try discriminate E.
    cbn [bindR] in E. injection E as <- _.
    cbn [map testname s_method s_path Earlier.httpSampler].
    rewrite Hn, Hm, Hp. repeat split.
Qed.

(** Whatever the current revision compiles, the earlier one compiles too,
    to as many samplers with the same names and methods; the current paths
    are the earlier ones behind the path part of the base URL. *)
Theorem revisions_agree (parseURL : string -> option URL) (env : Env) (fuel : nat)
  (spec : value) (config : JMeterConfig) (samplers : list Sampler) :
  generateJMeterXml parseURL env fuel spec config = Ok samplers ->
  exists parts earlier,
    urlParts parseURL config = Ok parts
    /\ Earlier.generateJMeterXml spec = Ok earlier
    /\ map testname samplers = map testname earlier
    /\ map s_method samplers = map s_method earlier
    /\ map s_path samplers = map (fun smp => path parts ++ s_path smp) earlier.
Proof.
  intro H. unfold generateJMeterXml in H. unfold Earlier.generateJMeterXml.
  destruct (urlParts parseURL config) as [parts| | |]; try discriminate H.
  cbn [bindR] in H.
  destruct (operations spec) as [ops| | |]; try discriminate H. cbn [bindR] in *.
  destruct (httpSamplers env spec parts fuel ops 0) as [[l d]| | |] eqn:Es;
    try discriminate H.
  cbn [bindR] in H. injection H as <-.
  exists parts, (map Earlier.httpSampler ops). split; [reflexivity|].
  split; [reflexivity|].
  exact (httpSamplers_earlier env spec parts fuel ops 0 l d Es).
Qed.

Lemma revisions_agree_witness :
  exists parts earlier,
    urlParts sampleParseURL sampleConfig = Ok parts
    /\ Earlier.generateJMeterXml danglingSpec = Ok earlier
    /\ ["getUser"; "POST /users/{id}"] = map testname earlier
    /\ ["GET"; "POST"] = map s_method earlier
    /\ ["/v1/users/${id}"; "/v1/users/${id}"]
       = map (fun smp => path parts ++ s_path smp) earlier.
Proof.
  apply (revisions_agree sampleParseURL env2025 2 danglingSpec sampleConfig
           [ {| testname := "getUser"; bodyData := None; s_domain := "api.example.com";
                s_port := "443"; s_protocol := "https"; s_path := "/v1/users/${id}";
                s_method := "GET" |};
             {| testname := "POST /users/{id}"; bodyData := Some "null";
                s_domain := "api.example.com"; s_port := "443"; s_protocol := "https";
                s_path := "/v1/users/${id}"; s_method := "POST" |} ]).
  reflexivity.
Defined.

(** ** The bound on the call depth *)

Lemma extends_refl (m : M value) : extends m m.
Proof. intros s _. reflexivity. Qed.

Lemma extends_bind (m1 m2 : M value) (k1 k2 : value -> M value) :
  extends m1 m2 -> (forall a, extends (k1 a) (k2 a)) ->
  extends (bind m1 k1) (bind m2 k2).
Proof.
  intros Hm Hk s H. unfold bind in *.
  destruct (m1 s) as [[a t]| | |] eqn:E; cbn [bindR] in H.
  - rewrite (Hm s) by (rewrite E; discriminate). rewrite E. cbn [bindR].
    now apply Hk.
  - rewrite (Hm s) by (rewrite E; discriminate). now rewrite E.
  - rewrite (Hm s) by (rewrite E; discriminate). now rewrite E.
  - congruence.
Qed.

Lemma sampleProperties_extends (gen1 gen2 : value -> option string -> M value)
  (es obj : list (string * value)) :
  (forall p k, extends (gen1 p k) (gen2 p k)) ->
  extends (sampleProperties gen1 es obj) (sampleProperties gen2 es obj).
Proof.
  intro Hg. revert obj. induction es as [|[key prop] es IH]; intro obj.
  - apply extends_refl.
  - cbn [sampleProperties]. apply extends_bind; [apply Hg | intro a; apply IH].
Qed.

Lemma sampleResolved_extends (env : Env)
  (recur1 recur2 : value -> option string -> M value) (r : value)
  (name : option string) :
  (forall p k, extends (recur1 p k) (recur2 p k)) ->
  extends (sampleResolved env recur1 r name) (sampleResolved env recur2 r name).
Proof.
  intro Hrec. unfold sampleResolved.
  destruct (negb (isUndefined (get r "example"))); [apply extends_refl|].
  assert (Hrest : extends (sampleByType env recur1 r name)
                          (sampleByType env recur2 r name)).
  { unfold sampleByType.
    destruct (typeIs r "object").
    { destruct (truthy (get r "properties")); [|apply extends_refl].
      now apply sampleProperties_extends. }
    destruct (typeIs r "array"); [|apply extends_refl].
    destruct (truthy (get r "items")); [|apply extends_refl].
    apply extends_bind; [apply Hrec | intro; apply extends_refl]. }
  destruct (get r "examples") as [| | | | |[|x l]|]; try exact Hrest.
  apply extends_refl.
Qed.

Lemma generate_extends (env : Env) (spec : value) (fuel : nat) :
  forall schema name,
    extends (generateSampleJson env spec fuel schema name)
            (generateSampleJson env spec (S fuel) schema name).
Proof.
  induction fuel as [|fuel IH]; intros schema name.
  - intros s H. exfalso. apply H. reflexivity.
  - change (generateSampleJson env spec (S (S fuel)) schema name)
      with (bind (lift (resolveSchema schema spec)) (fun r =>
              sampleResolved env (generateSampleJson env spec (S fuel)) r name)).
    change (generateSampleJson env spec (S fuel) schema name)
      with (bind (lift (resolveSchema schema spec)) (fun r =>
              sampleResolved env (generateSampleJson env spec fuel) r name)).
    apply extends_bind; [apply extends_refl|]. intro r.
    apply sampleResolved_extends. exact IH.
Qed.

Lemma generate_more_fuel (env : Env) (spec : value) (fuel more : nat) :
  forall schema name,
    extends (generateSampleJson env spec fuel schema name)
            (generateSampleJson env spec (more + fuel) schema name).
Proof.
  induction more as [|more IH]; intros schema name; [apply extends_refl|].
  intros s H. cbn [Nat.add].
  rewrite (generate_extends env spec (more + fuel) schema name s);
    rewrite (IH schema name s H); [reflexivity | exact H].
Qed.

Lemma generateRequestBody_more (env : Env) (spec : value) (fuel more : nat)
  (requestBody : value) (drawn : nat) :
  generateRequestBody env spec fuel requestBody drawn <> OutOfFuel ->
  generateRequestBody env spec (more + fuel) requestBody drawn
    = generateRequestBody env spec fuel requestBody drawn.
Proof.
  unfold generateRequestBody. intro H.
  destruct (negb (truthy (get requestBody "content"))); [reflexivity|].
  destruct (negb (truthy (get (get (get requestBody "content") "application/json")
                            "schema"))); [reflexivity|].
  rewrite (generate_more_fuel env spec fuel more); [reflexivity|].
  intro E. rewrite E in H. apply H. reflexivity.
Qed.

Lemma httpSampler_more (env : Env) (spec : value) (parts : UrlParts) (fuel more : nat)
  (op : Operation) (drawn : nat) :
  httpSampler env spec parts fuel op drawn <> OutOfFuel ->
  httpSampler env spec parts (more + fuel) op drawn
    = httpSampler env spec parts fuel op drawn.
Proof.
  unfold httpSampler. intro H.
  destruct (needsBody (op_method op)); [|reflexivity].
  rewrite (generateRequestBody_more env spec fuel more); [reflexivity|].
  intro E. rewrite E in H. apply H. reflexivity.
Qed.

Lemma httpSamplers_more (env : Env) (spec : value) (parts : UrlParts) (fuel more : nat)
  (ops : list Operation) :
  forall drawn,
    httpSamplers env spec parts fuel ops drawn <> OutOfFuel ->
    httpSamplers env spec parts (more + fuel) ops drawn
      = httpSamplers env spec parts fuel ops drawn.
Proof.
  induction ops as [|op ops IH]; intros drawn H; [reflexivity|].
  cbn [httpSamplers] in *.
  rewrite (httpSampler_more env spec parts fuel more op drawn).
  - destruct (httpSampler env spec parts fuel op drawn) as [[smp d1]| | |];
      try reflexivity.
    cbn [bindR] in *. rewrite (IH d1); [reflexivity|].
    intro E. rewrite E in H. apply H. reflexivity.
  - intro E. rewrite E in H. apply H. reflexivity.
Qed.

(** Adequacy of the depth bound of the embedding: once the bound is not
    hit, a larger bound gives the same outcome. *)
Lemma compile_same_with_more_depth (parseURL : string -> option URL) (env : Env)
  (fuel more : nat) (spec : value) (config : JMeterConfig) :
  generateJMeterXml parseURL env fuel spec config <> OutOfFuel ->
  generateJMeterXml parseURL env (more + fuel) spec config
    = generateJMeterXml parseURL env fuel spec config.
Proof.
  unfold generateJMeterXml. intro H.
  destruct (urlParts parseURL config) as [parts| | |]; try reflexivity.
  cbn [bindR] in *.
  destruct (operations spec) as [ops| | |]; try reflexivity. cbn [bindR] in *.
  rewrite (httpSamplers_more env spec parts fuel more ops 0); [reflexivity|].
  intro E. rewrite E in H. apply H. reflexivity.
Qed.

(** ** Schemas without references *)

Lemma finishes_ret (v : value) : finishes (ret v).
Proof. intros s. discriminate. Qed.

Lemma finishes_lift (r : result value) : r <> OutOfFuel -> finishes (lift r).
Proof. intros H s. unfold lift. destruct r; try discriminate. congruence. Qed.

Lemma finishes_nextId (k : Z -> value) : finishes (bind nextId (fun n => ret (k n))).
Proof. intros s. discriminate. Qed.

Lemma finishes_random (env : Env) (n : Z) (k : Z -> value) :
  finishes (bind (randomUpTo env n) (fun n => ret (k n))).
Proof. intros s. discriminate. Qed.

Lemma finishes_bind (m : M value) (k : value -> M value) :
  finishes m -> (forall a, finishes (k a)) -> finishes (bind m k).
Proof.
  intros Hm Hk s. unfold bind. specialize (Hm s).
  destruct (m s) as [[a t]| | |]; cbn [bindR]; try discriminate; [apply Hk | congruence].
Qed.

Lemma stringByName_finishes (name : option string) (m : M value) :
  stringByName name = Some m -> finishes m.
Proof.
  unfold stringByName. destruct (givenName name); [|discriminate].
  by_cases; intro H; try discriminate H; injection H as <-;
    first [apply finishes_ret | apply finishes_nextId].
Qed.

Lemma integerByName_finishes (env : Env) (name : option string) (m : M value) :
  integerByName env name = Some m -> finishes m.
Proof.
  unfold integerByName. destruct (givenName name); [|discriminate].
  by_cases; intro H; try discriminate H; injection H as <-;
    first [apply finishes_ret | apply finishes_nextId | apply finishes_random].
Qed.

Lemma numberByName_finishes (name : option string) (m : M value) :
  numberByName name = Some m -> finishes m.
Proof.
  unfold numberByName. destruct (givenName name); [|discriminate].
  by_cases; intro H; try discriminate H; injection H as <-; apply finishes_ret.
Qed.

Lemma enumOrSample_finishes (r : value) : finishes (enumOrSample r).
Proof.
  unfold enumOrSample.
  destruct (truthy (get r "enum")); [|apply finishes_ret].
  intros s. unfold bind, lift, greaterThanZero.
  destruct (get (get r "enum") "length") as [| |[|]|q| | |]; cbn [toNumber bindR];
    try discriminate.
  destruct (negb (Qle_bool q 0)); discriminate.
Qed.

Lemma byBounds_finishes (r : value) : finishes (byBounds r).
Proof.
  unfold byBounds. by_cases; try apply finishes_ret; apply finishes_lift.
  - destruct (get r "minimum") as [| |[|]| | | |]; cbn; discriminate.
  - destruct (get r "maximum") as [| |[|]| | | |]; cbn; discriminate.
Qed.

Lemma sampleProperties_finishes (gen : value -> option string -> M value)
  (es : list (string * value)) :
  (forall k c, In (k, c) es -> finishes (gen c (Some k))) ->
  forall obj, finishes (sampleProperties gen es obj).
Proof.
  induction es as [|[key prop] es IH]; intros Hg obj; [apply finishes_ret|].
  cbn [sampleProperties]. apply finishes_bind.
  - apply Hg. now left.
  - intro a. apply IH. intros k c Hin. apply Hg. now right.
Qed.

Lemma height_elem (e : value) (elems : list value) :
  In e elems ->
  (height e <= fold_right (fun x n => Nat.max (height x) n) O elems)%nat.
Proof.
  induction elems as [|x l IH]; intro H; [destruct H|].
  destruct H as [<-|Hin]; cbn [fold_right].
  - apply Nat.le_max_l.
  - etransitivity; [exact (IH Hin) | apply Nat.le_max_r].
Qed.

Lemma height_prop (key : string) (c : value) (props : list (string * value)) :
  In (key, c) props ->
  (height c <= fold_right (fun kv n => Nat.max (height (snd kv)) n) O props)%nat.
Proof.
  induction props as [|x l IH]; intro H; [destruct H|].
  destruct H as [->|Hin]; cbn [fold_right snd].
  - apply Nat.le_max_l.
  - etransitivity; [exact (IH Hin) | apply Nat.le_max_r].
Qed.

Lemma assoc_cases (key : string) (props : list (string * value)) :
  assoc key props = VUndefined \/ In (key, assoc key props) props.
Proof.
  induction props as [|[k v] props IH]; [left; reflexivity|].
  cbn [assoc]. destruct (String.eqb k key) eqn:E.
  - apply String.eqb_eq in E. subst k. right. left. reflexivity.
  - destruct IH as [IH|IH]; [left; exact IH | right; right; exact IH].
Qed.

Lemma indexed_in {A : Type} (key : string) (x : A) (l : list A) (i : nat) :
  In (key, x) (indexed i l) -> In x l.
Proof.
  revert i. induction l as [|y l IH]; intros i H; [destruct H|].
  cbn [indexed] in H. destruct H as [H|H].
  - injection H as _ ->. now left.
  - right. exact (IH (S i) H).
Qed.

Lemma chars_flat (c : value) (s : string) : In c (chars s) -> height c = O /\ refFree c = true.
Proof.
  induction s as [|a s IH]; intros H; [destruct H|].
  destruct H as [<-|H]; [split; reflexivity | exact (IH H)].
Qed.

Lemma get_height (v : value) (key : string) :
  (height (get v key) <= pred (height v))%nat.
Proof.
  destruct v as [| | | |s|elems|props]; cbn [get]; try apply Nat.le_0_l.
  - destruct (String.eqb key "length"); [apply Nat.le_0_l|].
    destruct (arrayIndex key); [|apply Nat.le_0_l].
    destruct (String.get n s); apply Nat.le_0_l.
  - destruct (String.eqb key "length"); [apply Nat.le_0_l|].
    destruct (arrayIndex key) as [i|]; [|apply Nat.le_0_l].
    destruct (nth_in_or_default i elems VUndefined) as [Hin| ->]; [|apply Nat.le_0_l].
    cbn [height pred]. now apply height_elem.
  - destruct (assoc_cases key props) as [->|Hin]; [apply Nat.le_0_l|].
    cbn [height pred]. exact (height_prop key _ props Hin).
Qed.

Lemma entries_height (v : value) (key : string) (c : value) :
  In (key, c) (entries v) -> (height c <= pred (height v))%nat.
Proof.
  destruct v as [| | | |s|elems|props]; cbn [entries]; try (intros []).
  - intro H. apply indexed_in, chars_flat in H as [-> _]. apply Nat.le_0_l.
  - intro H. apply indexed_in in H. cbn [height pred]. now apply height_elem.
  - intro H. cbn [height pred]. exact (height_prop key c props H).
Qed.

Lemma refFree_elem (e : value) (elems : list value) :
  forallb refFree elems = true -> In e elems -> refFree e = true.
Proof. intros H Hin. rewrite forallb_forall in H. now apply H. Qed.

Lemma refFree_prop (key : string) (c : value) (props : list (string * value)) :
  forallb (fun kv => refFree (snd kv)) props = true -> In (key, c) props ->
  refFree c = true.
Proof. intros H Hin. rewrite forallb_forall in H. exact (H (key, c) Hin). Qed.

Lemma get_refFree (v : value) (key : string) :
  refFree v = true -> refFree (get v key) = true.
Proof.
  intro H. destruct v as [| | | |s|elems|props]; cbn [get]; try reflexivity.
  - destruct (String.eqb key "length"); [reflexivity|].
    destruct (arrayIndex key); [|reflexivity].
    destruct (String.get n s); reflexivity.
  - destruct (String.eqb key "length"); [reflexivity|].
    destruct (arrayIndex key) as [i|]; [|reflexivity].
    destruct (nth_in_or_default i elems VUndefined) as [Hin| ->]; [|reflexivity].
    exact (refFree_elem _ elems H Hin).
  - cbn [refFree] in H. apply andb_true_iff in H as [_ H].
    destruct (assoc_cases key props) as [->|Hin]; [reflexivity|].
    exact (refFree_prop key _ props H Hin).
Qed.

Lemma entries_refFree (v : value) (key : string) (c : value) :
  refFree v = true -> In (key, c) (entries v) -> refFree c = true.
Proof.
  intro H. destruct v as [| | | |s|elems|props]; cbn [entries]; try (intros []).
  - intro Hin. now apply indexed_in, chars_flat in Hin as [_ ->].
  - intro Hin. apply indexed_in in Hin. exact (refFree_elem c elems H Hin).
  - intro Hin. cbn [refFree] in H. apply andb_true_iff in H as [_ H].
    exact (refFree_prop key c props H Hin).
Qed.

Lemma refFree_resolves (schema spec : value) :
  refFree schema = true -> isNullish schema = false ->
  resolveSchema schema spec = Ok schema.
Proof.
  intros H Hn. unfold resolveSchema, getProp. rewrite Hn. cbn [bindR].
  destruct schema as [| | | |s|elems|props]; try reflexivity.
  cbn [refFree] in H. apply andb_true_iff in H as [H _].
  apply negb_true_iff in H. cbn [get]. now rewrite H.
Qed.

Lemma typeIs_object (r : value) (t : string) :
  typeIs r t = true -> (1 <= height r)%nat.
Proof.
  unfold typeIs. destruct r as [| | | |s|elems|props]; try discriminate;
    intros _; cbn [height]; lia.
Qed.

Lemma sampleResolved_finishes (env : Env) (recur : value -> option string -> M value)
  (r : value) (name : option string) :
  (forall k c, In (k, c) (entries (get r "properties")) ->
     typeIs r "object" = true -> finishes (recur c (Some k))) ->
  (typeIs r "array" = true -> finishes (recur (get r "items") None)) ->
  finishes (sampleResolved env recur r name).
Proof.
  intros Hprops Hitems. unfold sampleResolved.
  destruct (negb (isUndefined (get r "example"))); [apply finishes_ret|].
  assert (Hrest : finishes (sampleByType env recur r name)).
  { unfold sampleByType.
    destruct (typeIs r "object").
    { destruct (truthy (get r "properties")); [|apply finishes_ret].
      apply sampleProperties_finishes. intros k c Hin. now apply Hprops. }
    destruct (typeIs r "array").
    { destruct (truthy (get r "items")); [|apply finishes_ret].
      apply finishes_bind; [now apply Hitems | intro; apply finishes_ret]. }
    destruct (typeIs r "string").
    { unfold orByName. destruct (stringByName name) eqn:E;
        [exact (stringByName_finishes name m E) | apply enumOrSample_finishes]. }
    destruct (typeIs r "integer").
    { unfold orByName. destruct (integerByName env name) eqn:E;
        [exact (integerByName_finishes env name m E) | apply byBounds_finishes]. }
    destruct (typeIs r "number").
    { unfold orByName. destruct (numberByName name) eqn:E;
        [exact (numberByName_finishes name m E) | apply byBounds_finishes]. }
    destruct (typeIs r "boolean"); apply finishes_ret. }
  destruct (get r "examples") as [| | | | |[|x l]|]; try exact Hrest.
  apply finishes_ret.
Qed.

(** Synthesis from a schema that holds no reference ends for every call
    depth bound above the nesting depth of the schema: with a value, or
    with one of the errors, never by running out of depth. *)
Theorem reference_free_terminates (env : Env) (spec : value) (fuel : nat)
  (schema : value) (name : option string) (s : State) :
  refFree schema = true ->
  (height schema < fuel)%nat ->
  generateSampleJson env spec fuel schema name s <> OutOfFuel.
Proof.
  revert schema name s. induction fuel as [|fuel IH]; intros schema name s Hfree Hh;
    [lia|].
  cbn [generateSampleJson]. unfold bind at 1, lift.
  destruct (isNullish schema) eqn:En.
  - unfold resolveSchema, getProp. rewrite En. discriminate.
  - rewrite (refFree_resolves schema spec Hfree En). cbn [bindR].
    apply sampleResolved_finishes.
    + intros k c Hin Ht s'. apply typeIs_object in Ht.
      pose proof (entries_height _ k c Hin) as H1.
      pose proof (get_height schema "properties") as H2.
      apply IH; [|lia].
      exact (entries_refFree _ k c (get_refFree schema "properties" Hfree) Hin).
    + intros Ht s'. apply typeIs_object in Ht.
      pose proof (get_height schema "items") as H2.
      apply IH; [|lia]. exact (get_refFree schema "items" Hfree).
Qed.

Lemma reference_free_terminates_witness :
  refFree plainSchema = true
  /\ height plainSchema = 4%nat
  /\ generateSampleJson env2025 cyclicSpec 5 plainSchema None state0 <> OutOfFuel.
Proof.
  split; [reflexivity|]. split; [reflexivity|].
  apply (reference_free_terminates env2025 cyclicSpec 5 plainSchema None state0);
    [reflexivity | cbn; lia].
Defined.

(** ** The shape of the synthesized value *)

Lemma setOwn_new (props : list (string * value)) (key : string) (v : value) :
  ~ In key (map fst props) -> setOwn props key v = (props ++ [(key, v)])%list.
Proof.
  induction props as [|[k w] props IH]; intro H; [reflexivity|].
  cbn [setOwn map fst In] in *. destruct (String.eqb k key) eqn:E.
  - apply String.eqb_eq in E. exfalso. apply H. now left.
  - cbn [app]. rewrite IH; [reflexivity|]. intro Hin. apply H. now right.
Qed.

Lemma sampleProperties_keys (gen : value -> option string -> M value)
  (es : list (string * value)) :
  forall obj s v s',
    NoDup (map fst obj ++ map fst es) ->
    sampleProperties gen es obj s = Ok (v, s') ->
    exists props,
      v = VObj props
      /\ map fst props
         = (map fst obj
              ++ filter (fun k => negb (String.eqb k "__proto__")) (map fst es))%list.
Proof.
  induction es as [|[key prop] es IH]; intros obj s v s' Hnd H.
  - injection H as <- _. exists obj. split; [reflexivity|].
    cbn [map filter]. now rewrite app_nil_r.
  - cbn [sampleProperties] in H. unfold bind in H.
    destruct (gen prop (Some key) s) as [[w t]| | |]; try discriminate H.
    cbn [bindR] in H. cbn [map fst filter] in *. unfold setProp in H.
    destruct (String.eqb key "__proto__") eqn:Ep; cbn [negb].
    + apply NoDup_remove_1 in Hnd. exact (IH obj t v s' Hnd H).
    + assert (Hnew : ~ In key (map fst obj)).
      { intro Hin. apply NoDup_remove_2 in Hnd. apply Hnd, in_or_app. now left. }
      rewrite (setOwn_new obj key w Hnew) in H.
      destruct (IH (obj ++ [(key, w)])%list t v s') as (props & -> & Hkeys).
      * rewrite map_app. cbn [map fst]. now rewrite <- app_assoc.
      * exact H.
      * exists props. split; [reflexivity|].
        rewrite Hkeys, map_app. cbn [map fst]. now rewrite <- app_assoc.
Qed.

(** The sample of an object schema has the keys of [properties] in their
    order (the keys of a parsed object are distinct), but for a key
    [__proto__], which the assignment does not turn into a property. *)
Theorem object_sample_keeps_keys (env : Env) (spec : value) (fuel : nat)
  (schema r : value) (name : option string) (s s' : State) (v : value) :
  resolveSchema schema spec = Ok r ->
  get r "example" = VUndefined ->
  (forall x l, get r "examples" <> VArr (x :: l)) ->
  typeIs r "object" = true ->
  truthy (get r "properties") = true ->
  NoDup (map fst (entries (get r "properties"))) ->
  generateSampleJson env spec (S fuel) schema name s = Ok (v, s') ->
  exists props,
    v = VObj props
    /\ map fst props
       = filter (fun k => negb (String.eqb k "__proto__"))
           (map fst (entries (get r "properties"))).
Proof.
  intros Hr Hex Hexs Ht Hp Hnd H.
  rewrite (generate_step env spec fuel schema r name s Hr Hex Hexs) in H.
  unfold sampleByType in H. rewrite Ht, Hp in H.
  exact (sampleProperties_keys _ _ [] s v s' Hnd H).
Qed.

Lemma object_sample_keeps_keys_witness :
  exists props,
    VObj [("id", VNum 1); ("name", VStr "sampleName")] = VObj props
    /\ map fst props = ["id"; "name"].
Proof.
  apply (object_sample_keeps_keys env2025 usersSpec 1 protoSchema protoSchema None
           state0 {| idCounter := 2; draws := 0 |});
    try reflexivity.
  - intros x l H. discriminate H.
  - repeat constructor; cbn; intuition discriminate.
Defined.

Lemma Math_max_above (m : Q) : (m <= Math_max m 1)%Q.
Proof.
  unfold Math_max. destruct (Qle_bool m 1) eqn:E.
  - now apply Qle_bool_iff.
  - apply Qle_refl.
Qed.

Lemma Math_min_below (m : Q) : (Math_min m 100 <= m)%Q.
Proof.
  unfold Math_min. destruct (Qle_bool m 100) eqn:E.
  - apply Qle_refl.
  - apply Qlt_le_weak, Qnot_le_lt. intro H. apply Qle_bool_iff in H. congruence.
Qed.

(** For an integer or number schema with no example, whose property name
    matches no entry of the name table: a declared [minimum] is respected
    (the value is at least the minimum), and so is a [maximum] declared
    alone. *)
Theorem single_bound_respected (env : Env) (spec : value) (fuel : nat)
  (schema r : value) (name : option string) (s : State) :
  resolveSchema schema spec = Ok r ->
  get r "example" = VUndefined ->
  (forall x l, get r "examples" <> VArr (x :: l)) ->
  (typeIs r "integer" = true /\ integerByName env name = None)
  \/ (typeIs r "number" = true /\ numberByName name = None) ->
  (forall m, get r "minimum" = VNum m ->
     exists x, generateSampleJson env spec (S fuel) schema name s = Ok (VNum x, s)
               /\ (m <= x)%Q)
  /\ (forall m, get r "minimum" = VUndefined -> get r "maximum" = VNum m ->
     exists x, generateSampleJson env spec (S fuel) schema name s = Ok (VNum x, s)
               /\ (x <= m)%Q).
Proof.
  intros Hr Hex Hexs Htype.
  assert (Hgen : generateSampleJson env spec (S fuel) schema name s = byBounds r s).
  { rewrite (generate_step env spec fuel schema r name s Hr Hex Hexs).
    unfold sampleByType. destruct Htype as [[Ht Hn]|[Ht Hn]].
    - rewrite (typeIs_other r "integer" "object" Ht eq_refl).
      rewrite (typeIs_other r "integer" "array" Ht eq_refl).
      rewrite (typeIs_other r "integer" "string" Ht eq_refl), Ht, Hn. reflexivity.
    - rewrite (typeIs_other r "number" "object" Ht eq_refl).
      rewrite (typeIs_other r "number" "array" Ht eq_refl).
      rewrite (typeIs_other r "number" "string" Ht eq_refl).
      rewrite (typeIs_other r "number" "integer" Ht eq_refl), Ht, Hn. reflexivity. }
  rewrite Hgen. destruct (byBounds_cases r s) as (_ & Hmin & Hmax). split.
  - intros m Hm. exists (Math_max m 1). split; [exact (Hmin m Hm) | apply Math_max_above].
  - intros m Hu Hm. exists (Math_min m 100).
    split; [exact (Hmax m Hu Hm) | apply Math_min_below].
Qed.

Lemma single_bound_respected_witness :
  (forall m, get boundedIntegerSchema "minimum" = VNum m ->
     exists x, generateSampleJson env2025 cyclicSpec 1 boundedIntegerSchema
                 (Some "size") state0 = Ok (VNum x, state0)
               /\ (m <= x)%Q)
  /\ (forall m, get boundedIntegerSchema "minimum" = VUndefined ->
      get boundedIntegerSchema "maximum" = VNum m ->
     exists x, generateSampleJson env2025 cyclicSpec 1 boundedIntegerSchema
                 (Some "size") state0 = Ok (VNum x, state0)
               /\ (x <= m)%Q).
Proof.
  apply (single_bound_respected env2025 cyclicSpec 0 boundedIntegerSchema
           boundedIntegerSchema (Some "size") state0);
    try reflexivity.
  - intros x l H. discriminate H.
  - left. split; reflexivity.
Defined.

Lemma stringByName_string (name : option string) (m : M value) (s s' : State)
  (v : value) :
  stringByName name = Some m -> m s = Ok (v, s') -> exists text, v = VStr text.
Proof.
  unfold stringByName. destruct (givenName name); [|discriminate].
  by_cases; intro H; try discriminate H; injection H as <-;
    intro E; injection E as <- _; eexists; reflexivity.
Qed.

Lemma integerByName_number (env : Env) (name : option string) (m : M value)
  (s s' : State) (v : value) :
  integerByName env name = Some m -> m s = Ok (v, s') -> exists q, v = VNum q.
Proof.
  unfold integerByName. destruct (givenName name); [|discriminate].
  by_cases; intro H; try discriminate H; injection H as <-;
    intro E; injection E as <- _; eexists; reflexivity.
Qed.

Lemma numberByName_number (name : option string) (m : M value) (s s' : State)
  (v : value) :
  numberByName name = Some m -> m s = Ok (v, s') -> exists q, v = VNum q.
Proof.
  unfold numberByName. destruct (givenName name); [|discriminate].
  by_cases; intro H; try discriminate H; injection H as <-;
    intro E; injection E as <- _; eexists; reflexivity.
Qed.

Lemma byBounds_number (r : value) (s s' : State) (v : value) :
  byBounds r s = Ok (v, s') -> exists q, v = VNum q.
Proof.
  unfold byBounds, lift. by_cases; intro H.
  - destruct (toNumber (get r "minimum")); try discriminate H.
    injection H as <- _. eexists; reflexivity.
  - destruct (toNumber (get r "maximum")); try discriminate H.
    injection H as <- _. eexists; reflexivity.
  - injection H as <- _. eexists; reflexivity.
Qed.

Lemma sampleProperties_object (gen : value -> option string -> M value)
  (es : list (string * value)) :
  forall obj s v s',
    sampleProperties gen es obj s = Ok (v, s') -> exists props, v = VObj props.
Proof.
  induction es as [|[key prop] es IH]; intros obj s v s' H.
  - injection H as <- _. eexists; reflexivity.
  - cbn [sampleProperties] in H. unfold bind in H.
    destruct (gen prop (Some key) s) as [[w t]| | |]; try discriminate H.
    exact (IH _ t v s' H).
Qed.

(** A schema without example and examples gets a sample of its declared
    type: an object for [object], an array of at most one item for [array],
    a string for [string] without [enum], a number for [integer] and
    [number], a boolean for [boolean]. *)
Theorem sample_has_declared_type (env : Env) (spec : value) (fuel : nat)
  (schema r : value) (name : option string) (s s' : State) (v : value) :
  resolveSchema schema spec = Ok r ->
  get r "example" = VUndefined ->
  (forall x l, get r "examples" <> VArr (x :: l)) ->
  generateSampleJson env spec (S fuel) schema name s = Ok (v, s') ->
  (typeIs r "object" = true -> exists props, v = VObj props)
  /\ (typeIs r "array" = true -> v = VArr [] \/ exists item, v = VArr [item])
  /\ (typeIs r "string" = true -> truthy (get r "enum") = false ->
      exists text, v = VStr text)
  /\ (typeIs r "integer" = true \/ typeIs r "number" = true -> exists q, v = VNum q)
  /\ (typeIs r "boolean" = true -> exists b, v = VBool b).
Proof.
  intros Hr Hex Hexs H.
  rewrite (generate_step env spec fuel schema r name s Hr Hex Hexs) in H.
  unfold sampleByType in H. repeat split.
  - intro Ht. rewrite Ht in H.
    destruct (truthy (get r "properties")).
    + exact (sampleProperties_object _ _ _ s v s' H).
    + injection H as <- _. eexists; reflexivity.
  - intro Ht. rewrite (typeIs_other r "array" "object" Ht eq_refl), Ht in H.
    destruct (truthy (get r "items")).
    + unfold bind in H.
      destruct (generateSampleJson env spec fuel (get r "items") None s)
        as [[w t]| | |]; try discriminate H.
      injection H as <- _. right. eexists; reflexivity.
    + injection H as <- _. now left.
  - intros Ht He. rewrite (typeIs_other r "string" "object" Ht eq_refl) in H.
    rewrite (typeIs_other r "string" "array" Ht eq_refl), Ht in H.
    unfold orByName in H. destruct (stringByName name) as [m|] eqn:E.
    + exact (stringByName_string name m s s' v E H).
    + unfold enumOrSample in H. rewrite He in H. injection H as <- _.
      eexists; reflexivity.
  - intros [Ht|Ht].
    + rewrite (typeIs_other r "integer" "object" Ht eq_refl) in H.
      rewrite (typeIs_other r "integer" "array" Ht eq_refl) in H.
      rewrite (typeIs_other r "integer" "string" Ht eq_refl), Ht in H.
      unfold orByName in H. destruct (integerByName env name) as [m|] eqn:E.
      * exact (integerByName_number env name m s s' v E H).
      * exact (byBounds_number r s s' v H).
    + rewrite (typeIs_other r "number" "object" Ht eq_refl) in H.
      rewrite (typeIs_other r "number" "array" Ht eq_refl) in H.
      rewrite (typeIs_other r "number" "string" Ht eq_refl) in H.
      rewrite (typeIs_other r "number" "integer" Ht eq_refl), Ht in H.
      unfold orByName in H. destruct (numberByName name) as [m|] eqn:E.
      * exact (numberByName_number name m s s' v E H).
      * exact (byBounds_number r s s' v H).
  - intro Ht. rewrite (typeIs_other r "boolean" "object" Ht eq_refl) in H.
    rewrite (typeIs_other r "boolean" "array" Ht eq_refl) in H.
    rewrite (typeIs_other r "boolean" "string" Ht eq_refl) in H.
    rewrite (typeIs_other r "boolean" "integer" Ht eq_refl) in H.
    rewrite (typeIs_other r "boolean" "number" Ht eq_refl), Ht in H.
    injection H as <- _. unfold booleanByName.
    destruct (givenName name); by_cases; eexists; reflexivity.
Qed.

Lemma sample_has_declared_type_witness :
  exists props, VObj [("id", VNum 1); ("name", VStr "sampleName")] = VObj props.
Proof.
  refine (proj1 (sample_has_declared_type env2025 usersSpec 1 userSchema userSchema
                   None state0 {| idCounter := 2; draws := 0 |}
                   (VObj [("id", VNum 1); ("name", VStr "sampleName")]) _ _ _ _) _);
    try reflexivity.
  intros x l H. discriminate H.
Defined.

(** ** Where the operations come from *)

Lemma includedIn_upper (method : string) :
  includedIn method httpMethods = true ->
  In (toUpperCase method) ["GET"; "POST"; "PUT"; "DELETE"; "PATCH"; "HEAD"; "OPTIONS"].
Proof.
  intro H. unfold includedIn in H. apply existsb_exists in H as (m & Hin & He).
  apply String.eqb_eq in He. subst m.
  exact (in_map toUpperCase httpMethods method Hin).
Qed.

Lemma pathItemOperations_source (path : string) (es : list (string * value)) :
  forall ops, pathItemOperations path es = Ok ops ->
    Forall (fun op =>
              op_path op = path
              /\ In (op_method op)
                    ["GET"; "POST"; "PUT"; "DELETE"; "PATCH"; "HEAD"; "OPTIONS"]) ops.
Proof.
  induction es as [|[method operation] es IH]; intros ops H.
  - injection H as <-. constructor.
  - cbn [pathItemOperations] in H.
    destruct (includedIn method httpMethods) eqn:Em; [|exact (IH ops H)].
    destruct (getProp operation "operationId"); try discriminate H. cbn [bindR] in H.
    destruct (pathItemOperations path es) as [rest| | |]; try discriminate H.
    cbn [bindR] in H. injection H as <-. constructor.
    + split; [reflexivity | exact (includedIn_upper method Em)].
    + exact (IH rest eq_refl).
Qed.

Lemma pathsOperations_source (es : list (string * value)) :
  forall ops, pathsOperations es = Ok ops ->
    Forall (fun op =>
              In (op_path op) (map fst es)
              /\ In (op_method op)
                    ["GET"; "POST"; "PUT"; "DELETE"; "PATCH"; "HEAD"; "OPTIONS"]) ops.
Proof.
  induction es as [|[path pathItem] es IH]; intros ops H.
  - injection H as <-. constructor.
  - cbn [pathsOperations] in H.
    destruct (Object_entries pathItem) as [inner| | |]; try discriminate H.
    cbn [bindR] in H.
    destruct (pathItemOperations path inner) as [here| | |] eqn:Eh; try discriminate H.
    cbn [bindR] in H.
    destruct (pathsOperations es) as [rest| | |]; try discriminate H.
    cbn [bindR] in H. injection H as <-. apply Forall_app. split.
    + eapply Forall_impl; [|exact (pathItemOperations_source path inner here Eh)].
      intros op [Hp Hm]. split; [left; now rewrite Hp | exact Hm].
    + eapply Forall_impl; [|exact (IH rest eq_refl)].
      intros op [Hp Hm]. split; [right; exact Hp | exact Hm].
Qed.

(** Every extracted operation comes from the paths table: its path is one
    of the keys of [paths] and its method is one of the seven method names
    in upper case. *)
Theorem operations_from_paths (spec : value) (ops : list Operation) :
  operations spec = Ok ops ->
  Forall (fun op =>
            In (op_path op) (map fst (entries (orElse (get spec "paths") (VObj []))))
            /\ In (op_method op)
                  ["GET"; "POST"; "PUT"; "DELETE"; "PATCH"; "HEAD"; "OPTIONS"]) ops.
Proof. intro H. exact (pathsOperations_source _ ops H). Qed.

Lemma operations_from_paths_witness :
  exists ops,
    operations usersSpec = Ok ops
    /\ Forall (fun op =>
                 In (op_path op) ["/users"]
                 /\ In (op_method op)
                       ["GET"; "POST"; "PUT"; "DELETE"; "PATCH"; "HEAD"; "OPTIONS"]) ops.
Proof.
  eexists. split; [reflexivity|].
  apply (operations_from_paths usersSpec). reflexivity.
Defined.

(** ** Request bodies *)








